(** * SpaceTimeRotatingFileHandler: size- and time-triggered log rotation

    A shallow embedding of [SpaceTimeRotatingFileHandler.py] and of the
    parts of CPython's [logging.handlers] (as of CPython 3.11) and
    [time] modules that the handler calls into.  The handler object,
    the directory it writes to and the console are explicit state; the
    current time is an argument wherever the code reads the clock; the
    two [while] loops of [doRollover] take fuel, and running out of
    fuel is a distinct outcome. *)

From Stdlib Require Import ZArith String Ascii List Bool Lia DecimalString.
From stdpp Require Import base option list gmap strings sorting.

Local Open Scope string_scope.
Local Open Scope Z_scope.

(** ** Strings and number formatting *)

Module Text.

(** The line terminator written after the header and after each record. *)
Definition LF : string := String "010"%char EmptyString.

(** [str.upper()] on ASCII letters. *)
Definition upper_ascii (c : ascii) : ascii :=
  let n := nat_of_ascii c in
  if ((97 <=? n)%nat && (n <=? 122)%nat)%bool then ascii_of_nat (n - 32) else c.

Fixpoint upper (s : string) : string :=
  match s with
  | EmptyString => EmptyString
  | String c r => String (upper_ascii c) (upper r)
  end.

(** [s.startswith(p)] *)
Definition startswith (p s : string) : bool := String.prefix p s.

Fixpoint zeros (n : nat) : string :=
  match n with
  | O => EmptyString
  | S k => String "0"%char (zeros k)
  end.

(** Left-pad with the digit 0 up to width [w]. *)
Definition zfill (w : nat) (s : string) : string :=
  zeros (w - String.length s) +:+ s.

(** Decimal numeral of a non-negative integer. *)
Definition dec (n : Z) : string := NilZero.string_of_uint (N.to_uint (Z.to_N n)).

(** ["%03d" % n] *)
Definition fmt_03d (n : Z) : string :=
  if n <? 0 then "-" +:+ zfill 2 (dec (- n)) else zfill 3 (dec n).

(** ["%02d" % n], the shape of the strftime fields below. *)
Definition fmt_02d (n : Z) : string := zfill 2 (dec n).

End Text.
Export Text.

(** ** Calendar time: [time.gmtime], [time.localtime], [time.strftime] *)

Module Calendar.

(** The fields of [time.struct_time] that the handler reads; [tm_isdst]
    is the last element of the tuple, read as [timeTuple[-1]]. *)
Record struct_time := {
  tm_year : Z; tm_mon : Z; tm_mday : Z;
  tm_hour : Z; tm_min : Z; tm_sec : Z;
  tm_wday : Z;
  tm_isdst : bool
}.

(** Proleptic Gregorian date of a day number counted from 1970-01-01. *)
Definition civil_from_days (days : Z) : Z * Z * Z :=
  let z := days + 719468 in
  let era := z / 146097 in
  let doe := z - era * 146097 in
  let yoe := (doe - doe / 1460 + doe / 36524 - doe / 146096) / 365 in
  let y := yoe + era * 400 in
  let doy := doe - (365 * yoe + yoe / 4 - yoe / 100) in
  let mp := (5 * doy + 2) / 153 in
  let d := doy - (153 * mp + 2) / 5 + 1 in
  let m := if mp <? 10 then mp + 3 else mp - 9 in
  (if m <=? 2 then y + 1 else y, m, d).

(** Broken-down time of a count of seconds; Monday is weekday 0 and
    1970-01-01 was a Thursday. *)
Definition breakdown (secs : Z) (dst : bool) : struct_time :=
  let days := secs / 86400 in
  let rem := secs mod 86400 in
  let '(y, m, d) := civil_from_days days in
  {| tm_year := y; tm_mon := m; tm_mday := d;
     tm_hour := rem / 3600; tm_min := rem mod 3600 / 60; tm_sec := rem mod 60;
     tm_wday := (days + 3) mod 7;
     tm_isdst := dst |}.

(** A time zone as the C library sees it: for every instant, the offset
    from UTC in force and whether that offset is a daylight-saving one. *)
Record TimeZone := {
  utcoffset : Z -> Z;
  isdst : Z -> bool
}.

(** [time.gmtime] and [time.localtime], for the times the platform's
    [time_t] can hold; beyond that range the library raises
    [OverflowError], which is not modelled. *)
Definition gmtime (t : Z) : struct_time := breakdown t false.

Definition localtime (tz : TimeZone) (t : Z) : struct_time :=
  breakdown (t + utcoffset tz t) (isdst tz t).

(** The strftime directives that occur in the handler's suffixes. *)
Definition directive (c : ascii) (t : struct_time) : string :=
  if Ascii.eqb c "Y" then dec (tm_year t)
  else if Ascii.eqb c "m" then fmt_02d (tm_mon t)
  else if Ascii.eqb c "d" then fmt_02d (tm_mday t)
  else if Ascii.eqb c "H" then fmt_02d (tm_hour t)
  else if Ascii.eqb c "M" then fmt_02d (tm_min t)
  else if Ascii.eqb c "S" then fmt_02d (tm_sec t)
  else String "%" (String c EmptyString).

Fixpoint strftime (fmt : string) (t : struct_time) : string :=
  match fmt with
  | EmptyString => EmptyString
  | String c rest =>
      if Ascii.eqb c "%" then
        match rest with
        | String d rest' => directive d t +:+ strftime rest' t
        | EmptyString => String c EmptyString
        end
      else String c (strftime rest t)
  end.

End Calendar.
Export Calendar.

(** ** The operating system: a directory, the console, and the calls made *)

Module OS.

(** [open] modes: append (['a']) and truncate (['w']). *)
Inductive open_mode := ModeA | ModeW.

(** Directory-changing calls, logged in the order they are made. *)
Inductive syscall :=
| SysRemove (path : string)
| SysRename (src dst : string)
| SysOpen (path : string) (m : open_mode).

(** The directory of the log file, which exists throughout: its files
    are regular files, named by their full path and holding their
    content; [stdout] is what [print] has written so far. *)
Record World := {
  files : gmap string string;
  stdout : list string;
  calls : list syscall
}.

Inductive Exn :=
| ValueError (msg : string)
| FileNotFoundError (path : string).

(** Outcome of a computation: a value, a raised exception, or a loop
    that has not finished within the fuel it was given. *)
Inductive Res (A : Type) :=
| Ok (a : A) (w : World)
| Raise (e : Exn) (w : World)
| Diverge.
Arguments Ok {A} a w.
Arguments Raise {A} e w.
Arguments Diverge {A}.

Definition M (A : Type) : Type := World -> Res A.

#[export] Instance M_ret : MRet M := λ A a w, Ok a w.
#[export] Instance M_bind : MBind M := λ A B f c w,
  match c w with
  | Ok a w' => f a w'
  | Raise e w' => Raise e w'
  | Diverge => Diverge
  end.

Definition raise {A} (e : Exn) : M A := λ w, Raise e w.
Definition diverge {A} : M A := λ _, Diverge.

Definition with_files (f : gmap string string) (c : syscall) (w : World) : World :=
  {| files := f; stdout := stdout w; calls := calls w ++ [c] |}.

(** [os.path.exists(p)] *)
Definition os_path_exists (p : string) : M bool := λ w,
  Ok (match files w !! p with Some _ => true | None => false end) w.

(** [os.remove(p)] *)
Definition os_remove (p : string) : M unit := λ w,
  match files w !! p with
  | Some _ => Ok tt (with_files (delete p (files w)) (SysRemove p) w)
  | None => Raise (FileNotFoundError p) w
  end.

(** [os.rename(src, dst)], POSIX: an existing [dst] is replaced. *)
Definition os_rename (src dst : string) : M unit := λ w,
  match files w !! src with
  | Some c => Ok tt (with_files (<[dst := c]> (delete src (files w))) (SysRename src dst) w)
  | None => Raise (FileNotFoundError src) w
  end.

(** [os.listdir]: the names present, in no particular order. *)
Definition os_listdir : M (list string) := λ w, Ok (map_to_list (files w)).*1 w.

(** [open(p, mode)]: creates the file when absent; ['w'] empties it. *)
Definition open_file (p : string) (m : open_mode) : M string := λ w,
  let f := match m, files w !! p with
           | ModeA, Some _ => files w
           | _, _ => <[p := EmptyString]> (files w)
           end in
  Ok p (with_files f (SysOpen p m) w).

(** [stream.write(s)] on a stream opened on [p]: appends at the end. *)
Definition stream_write (p s : string) : M unit := λ w,
  Ok tt {| files := <[p := default EmptyString (files w !! p) +:+ s]> (files w);
           stdout := stdout w; calls := calls w |}.

(** [stream.seek(0, 2); stream.tell()] *)
Definition stream_tell_end (p : string) : M Z := λ w,
  Ok (Z.of_nat (String.length (default EmptyString (files w !! p)))) w.

(** [print(s)] *)
Definition print (s : string) : M unit := λ w,
  Ok tt {| files := files w; stdout := stdout w ++ [s]; calls := calls w |}.

End OS.
Export OS.

(** ** The handler object *)

Module Handler.

(** Attributes of a handler instance.  [namer] and [rotator] are the
    class attributes of [BaseRotatingHandler], [None] unless assigned. *)
Record Handler := {
  baseFilename : string;
  mode : open_mode;
  maxBytes : Z;
  backupCount : Z;
  when : string;
  interval : Z;
  utc : bool;
  suffix : string;
  dayOfWeek : Z;
  rolloverAt : Z;
  header : option string;
  delay : bool;
  stream : option string;
  namer : option (string -> string);
  rotator : option (string -> string -> M unit)
}.

Definition set_stream (s : option string) (h : Handler) : Handler :=
  {| baseFilename := baseFilename h; mode := mode h; maxBytes := maxBytes h;
     backupCount := backupCount h; when := when h; interval := interval h;
     utc := utc h; suffix := suffix h; dayOfWeek := dayOfWeek h;
     rolloverAt := rolloverAt h; header := header h; delay := delay h;
     stream := s; namer := namer h; rotator := rotator h |}.

Definition set_rolloverAt (t : Z) (h : Handler) : Handler :=
  {| baseFilename := baseFilename h; mode := mode h; maxBytes := maxBytes h;
     backupCount := backupCount h; when := when h; interval := interval h;
     utc := utc h; suffix := suffix h; dayOfWeek := dayOfWeek h;
     rolloverAt := t; header := header h; delay := delay h;
     stream := stream h; namer := namer h; rotator := rotator h |}.

(** What the interpreter and its library fix from outside the handler:
    the local time zone, and which directory entries the loop of
    [getFilesToDelete] keeps as candidates (a test on the file name that
    differs between CPython releases), given the handler's
    [baseFilename], [when] and [namer]. *)
Record Platform := {
  zone : TimeZone;
  selects : string -> string -> option (string -> string) -> string -> bool
}.

End Handler.
Export Handler.

(** ** Methods inherited from [logging.handlers] *)

Module Stdlib_handlers.
Section WithPlatform.
Variable P : Platform.

Definition _MIDNIGHT : Z := 24 * 60 * 60.

(** [BaseRotatingHandler.rotation_filename] *)
Definition rotation_filename (h : Handler) (default_name : string) : string :=
  match namer h with
  | None => default_name
  | Some f => f default_name
  end.

(** [BaseRotatingHandler.rotate] *)
Definition rotate (h : Handler) (source dest : string) : M unit :=
  match rotator h with
  | None =>
      e ← os_path_exists source;
      if e : bool then os_rename source dest else mret tt
  | Some f => f source dest
  end.

(** [FileHandler._open]: opens [baseFilename] with the handler's mode. *)
Definition _open (h : Handler) : M string := open_file (baseFilename h) (mode h).

(** The test [dstNow != dstAtRollover] and the choice of [addend] that
    follows it, as written in [computeRollover] and in [doRollover]. *)
Definition dst_shift (dstNow : bool) (newRolloverAt : Z) : Z :=
  let dstAtRollover := tm_isdst (localtime (zone P) newRolloverAt) in
  if negb (Bool.eqb dstNow dstAtRollover) then
    let addend := if negb dstNow then -3600 else 3600 in
    newRolloverAt + addend
  else newRolloverAt.

(** [TimedRotatingFileHandler.computeRollover], with [atTime] left at
    [None] as this handler's constructor leaves it. *)
Definition computeRollover (h : Handler) (currentTime : Z) : Z :=
  let result := currentTime + interval h in
  if String.eqb (when h) "MIDNIGHT" || startswith "W" (when h) then
    let t := if utc h then gmtime currentTime else localtime (zone P) currentTime in
    let currentHour := tm_hour t in
    let currentMinute := tm_min t in
    let currentSecond := tm_sec t in
    let currentDay := tm_wday t in
    let rotate_ts := _MIDNIGHT in
    let r := rotate_ts - ((currentHour * 60 + currentMinute) * 60 + currentSecond) in
    let '(r, currentDay) :=
      if r <? 0 then (r + _MIDNIGHT, (currentDay + 1) mod 7) else (r, currentDay) in
    let result := currentTime + r in
    if startswith "W" (when h) then
      let day := currentDay in
      if negb (day =? dayOfWeek h) then
        let daysToWait :=
          if day <? dayOfWeek h then dayOfWeek h - day
          else 6 - day + dayOfWeek h + 1 in
        let newRolloverAt := result + daysToWait * (60 * 60 * 24) in
        if negb (utc h) then dst_shift (tm_isdst t) newRolloverAt
        else newRolloverAt
      else result
    else result
  else result.

(** [list.sort()] on path names: code-point order. *)
Definition sorted (l : list string) : list string :=
  merge_sort (λ a b : string, String.leb a b) l.

(** [TimedRotatingFileHandler.getFilesToDelete]: the selected entries,
    sorted, without the [backupCount] last ones. *)
Definition getFilesToDelete (h : Handler) : M (list string) :=
  fileNames ← os_listdir;
  let result := filter (λ p, selects P (baseFilename h) (when h) (namer h) p) fileNames in
  if Z.of_nat (length result) <? backupCount h then mret []
  else
    let result := sorted result in
    mret (take (Z.to_nat (Z.of_nat (length result) - backupCount h)) result).

(** [RotatingFileHandler.shouldRollover]; [record] stands for the
    formatted record, [self.format(record)].  The later releases' test
    that the base file is a regular file always passes in [World]. *)
Definition RotatingFileHandler_shouldRollover (h : Handler) (record : string)
  : M (Handler * bool) :=
  h ← match stream h with
      | None => s ← _open h; mret (set_stream (Some s) h)
      | Some _ => mret h
      end;
  if 0 <? maxBytes h then
    let msg := record +:+ LF in
    pos ← stream_tell_end (default EmptyString (stream h));
    if pos + Z.of_nat (String.length msg) >=? maxBytes h then mret (h, true)
    else mret (h, false)
  else mret (h, false).

(** [TimedRotatingFileHandler.shouldRollover]; [t] is [int(time.time())]. *)
Definition TimedRotatingFileHandler_shouldRollover (h : Handler) (t : Z) : bool :=
  if t >=? rolloverAt h then true else false.

(** [FileHandler.emit] followed by [StreamHandler.emit]: the stream is
    opened when the handler has none, then the record and the line
    terminator are written. *)
Definition FileHandler_emit (h : Handler) (record : string) : M Handler :=
  h ← match stream h with
      | None => s ← _open h; mret (set_stream (Some s) h)
      | Some _ => mret h
      end;
  stream_write (default EmptyString (stream h)) (record +:+ LF);;
  mret h.

End WithPlatform.
End Stdlib_handlers.
Export Stdlib_handlers.

(** ** [class SpaceTimeRotatingFileHandler] *)

Module SpaceTime.
Section WithPlatform.
Variable P : Platform.

(** The branch on [self.when] in [TimedRotatingFileHandler.__init__]:
    the base interval in seconds, the suffix and the day of the week,
    or the [ValueError] it raises. *)
Definition parse_when (w : string) : Exn + (Z * string * Z) :=
  if String.eqb w "S" then inr (1, "%Y-%m-%d_%H-%M-%S", 0)
  else if String.eqb w "M" then inr (60, "%Y-%m-%d_%H-%M", 0)
  else if String.eqb w "H" then inr (60 * 60, "%Y-%m-%d_%H", 0)
  else if String.eqb w "D" || String.eqb w "MIDNIGHT" then inr (60 * 60 * 24, "%Y-%m-%d", 0)
  else if startswith "W" w then
    match w with
    | String _ (String d EmptyString) =>
        if ((nat_of_ascii d <? 48)%nat || (54 <? nat_of_ascii d)%nat)%bool then
          inl (ValueError ("Invalid day specified for weekly rollover: " +:+ w))
        else inr (60 * 60 * 24 * 7, "%Y-%m-%d", Z.of_nat (nat_of_ascii d - 48))
    | _ =>
        inl (ValueError
          ("You must specify a day for weekly rollover from 0 to 6 (0 is Monday): " +:+ w))
    end
  else inl (ValueError ("Invalid rollover interval specified: " +:+ w)).

(** [FileHandler.__init__], reached once through each parent class:
    the file is opened at once unless [delay] is set. *)
Definition FileHandler_init (filename : string) (m : open_mode) (delay : bool)
  : M (option string) :=
  if delay then mret None else s ← open_file filename m; mret (Some s).

(** [__init__].  [now] is [int(time.time())] and [mtime] the
    modification time [os.stat] reports for an existing file. *)
Definition __init__ (filename : string) (mode : open_mode) (maxBytes backupCount : Z)
    (delay : bool) (when : string) (interval : Z) (utc : bool)
    (header : option string) (now mtime : Z) : M Handler :=
  (* RotatingFileHandler.__init__ *)
  let mode := if 0 <? maxBytes then ModeA else mode in
  _ ← FileHandler_init filename mode delay;
  (* TimedRotatingFileHandler.__init__ *)
  stream ← FileHandler_init filename ModeA delay;
  let when := upper when in
  match parse_when when with
  | inl e => raise e
  | inr (unit, suffix, dayOfWeek) =>
      let interval := unit * interval in
      e ← os_path_exists filename;
      let t := if e : bool then mtime else now in
      let h := {| baseFilename := filename; mode := ModeA; maxBytes := maxBytes;
                  backupCount := backupCount; when := when; interval := interval;
                  utc := utc; suffix := suffix; dayOfWeek := dayOfWeek;
                  rolloverAt := 0; header := header; delay := delay;
                  stream := stream; namer := None; rotator := None |} in
      let h := set_rolloverAt (computeRollover P h t) h in
      (* Write the header if delay is False and a file stream was created. *)
      match delay, stream, header with
      | false, Some s, Some hd => stream_write s (hd +:+ LF)
      | _, _, _ => mret tt
      end;;
      mret h
  end.

(** Lines 50-52: the stream, when there is one, is closed and dropped. *)
Definition close_stream (h : Handler) : Handler :=
  match stream h with
  | Some _ => set_stream None h
  | None => h
  end.

(** Lines 54-69: the name [dfn] under which the closed segment is
    archived. *)
Definition archive_name (h : Handler) (currentTime : Z) : string :=
  let dstNow := tm_isdst (localtime (zone P) currentTime) in
  let t := rolloverAt h - interval h in
  let timeTuple :=
    if utc h then gmtime t
    else
      let timeTuple := localtime (zone P) t in
      let dstThen := tm_isdst timeTuple in
      if negb (Bool.eqb dstNow dstThen) then
        let addend := if dstNow then 3600 else -3600 in
        localtime (zone P) (t + addend)
      else timeTuple in
  rotation_filename h (baseFilename h +:+ "." +:+ strftime (suffix h) timeTuple).

(** Lines 74-75: [while os.path.exists(sfn)]; one unit of fuel per test
    of the condition.  [rotation_number] is passed on unchanged, as the
    loop body does not assign it. *)
Fixpoint find_sfn (fuel : nat) (h : Handler) (dfn : string) (rotation_number : Z)
    (sfn : string) : M string :=
  match fuel with
  | O => diverge
  | S fuel =>
      e ← os_path_exists sfn;
      if e : bool then
        find_sfn fuel h dfn rotation_number
          (rotation_filename h (dfn +:+ "." +:+ fmt_03d rotation_number))
      else mret sfn
  end.

(** Lines 77-78: [for s in self.getFilesToDelete(): os.remove(s)] *)
Fixpoint remove_each (l : list string) : M unit :=
  match l with
  | [] => mret tt
  | s :: l => os_remove s;; remove_each l
  end.

(** Lines 71-82: the closed segment is moved to its archive name. *)
Definition archive (fuel : nat) (h : Handler) (dfn : string) : M unit :=
  if 0 <? backupCount h then
    let sfn := rotation_filename h (dfn +:+ "." +:+ fmt_03d 1) in
    let rotation_number := 1 in
    sfn ← find_sfn fuel h dfn rotation_number sfn;
    rotate h (baseFilename h) sfn;;
    l ← getFilesToDelete P h;
    remove_each l
  else
    e ← os_path_exists dfn;
    (if e : bool then os_remove dfn else mret tt);;
    rotate h (baseFilename h) dfn.

(** Lines 83-87: a new segment is opened and given its header. *)
Definition reopen (h : Handler) : M Handler :=
  if negb (delay h) then
    s ← _open h;
    let h := set_stream (Some s) h in
    match header h with
    | Some hd => print "Hi!";; stream_write s (hd +:+ LF)
    | None => mret tt
    end;;
    mret h
  else mret h.

(** Lines 90-91: [while newRolloverAt <= currentTime]; one unit of fuel
    per test of the condition, [None] when the fuel runs out. *)
Fixpoint advance (fuel : nat) (interval currentTime newRolloverAt : Z) : option Z :=
  match fuel with
  | O => None
  | S fuel =>
      if newRolloverAt <=? currentTime then
        advance fuel interval currentTime (newRolloverAt + interval)
      else Some newRolloverAt
  end.

(** Lines 93-100: the adjustment of the new rollover time. *)
Definition dst_adjust (h : Handler) (dstNow : bool) (newRolloverAt : Z) : Z :=
  if (String.eqb (when h) "MIDNIGHT" || startswith "W" (when h)) && negb (utc h) then
    dst_shift P dstNow newRolloverAt
  else newRolloverAt.

(** Lines 89-101: the next rollover time. *)
Definition next_rollover (fuel : nat) (h : Handler) (currentTime : Z) (dstNow : bool)
  : M Z :=
  match advance fuel (interval h) currentTime (computeRollover P h currentTime) with
  | Some newRolloverAt => mret (dst_adjust h dstNow newRolloverAt)
  | None => diverge
  end.

(** [doRollover]; [currentTime] is [int(time.time())]. *)
Definition doRollover (fuel : nat) (h : Handler) (currentTime : Z) : M Handler :=
  let h := close_stream h in
  let dstNow := tm_isdst (localtime (zone P) currentTime) in
  let dfn := archive_name h currentTime in
  archive fuel h dfn;;
  h ← reopen h;
  newRolloverAt ← next_rollover fuel h currentTime dstNow;
  mret (set_rolloverAt newRolloverAt h).

(** [shouldRollover]: Python's [or] evaluates its right operand only
    when the left one is false. *)
Definition shouldRollover (h : Handler) (record : string) (now : Z) : M (Handler * bool) :=
  '(h, r) ← RotatingFileHandler_shouldRollover h record;
  if r : bool then mret (h, true)
  else mret (h, TimedRotatingFileHandler_shouldRollover h now).

(** [BaseRotatingHandler.emit], the body of its [try]. *)
Definition emit (fuel : nat) (h : Handler) (record : string) (now : Z) : M Handler :=
  '(h, r) ← shouldRollover h record now;
  h ← (if r : bool then doRollover fuel h now else mret h);
  FileHandler_emit h record.

(** Rollovers at the successive times of a list. *)
Fixpoint doRollovers (fuel : nat) (h : Handler) (times : list Z) : M Handler :=
  match times with
  | [] => mret h
  | t :: times => h ← doRollover fuel h t; doRollovers fuel h times
  end.

End WithPlatform.
End SpaceTime.
Export SpaceTime.

(** ** A concrete platform *)

Module Examples.

(** UTC all year round. *)
Definition tz_utc : TimeZone := {| utcoffset := λ _, 0; isdst := λ _, false |}.

(** Cuba in 2021: UTC-5, and UTC-4 with daylight saving from local
    midnight of 14 March (05:00 UTC) to 7 November. *)
Definition tz_havana_2021 : TimeZone :=
  let dst t := (1615698000 <=? t) && (t <? 1636261200) in
  {| utcoffset := λ t, if dst t then -14400 else -18000; isdst := dst |}.

Definition is_digit (c : ascii) : bool :=
  let n := nat_of_ascii c in ((48 <=? n) && (n <=? 57))%nat.

(** [\w] under [re.ASCII] *)
Definition is_word (c : ascii) : bool :=
  let n := nat_of_ascii c in
  (is_digit c || ((65 <=? n) && (n <=? 90)) || ((97 <=? n) && (n <=? 122)) || (n =? 95))%nat.

(** The date part of [extMatch]: [\d] or a literal character. *)
Inductive cls := Digit | Lit (c : ascii).

(** The pattern that [TimedRotatingFileHandler.__init__] pairs with a
    suffix: [\d{4}] for [%Y], [\d{2}] for the other directives. *)
Fixpoint pattern_of (fmt : string) : list cls :=
  match fmt with
  | EmptyString => []
  | String c rest =>
      if Ascii.eqb c "%" then
        match rest with
        | String d rest' =>
            (if Ascii.eqb d "Y" then [Digit; Digit; Digit; Digit] else [Digit; Digit])
              ++ pattern_of rest'
        | EmptyString => [Lit c]
        end
      else Lit c :: pattern_of rest
  end.

(** Matches a pattern at the front of [s]; the rest of [s] on success. *)
Fixpoint match_front (p : list cls) (s : string) : option string :=
  match p, s with
  | [], _ => Some s
  | Digit :: p, String c r => if is_digit c then match_front p r else None
  | Lit a :: p, String c r => if Ascii.eqb a c then match_front p r else None
  | _ :: _, EmptyString => None
  end.

Fixpoint skip_word (s : string) : string :=
  match s with
  | String c r => if is_word c then skip_word r else s
  | EmptyString => EmptyString
  end.

(** [$]: the end of the string, or just before a final line feed. *)
Definition at_end (s : string) : bool := String.eqb s EmptyString || String.eqb s LF.

(** [(\.\w+)?$] *)
Definition match_ext (s : string) : bool :=
  at_end s ||
  match s with
  | String c (String w r) =>
      Ascii.eqb c "." && is_word w && at_end (skip_word r)
  | _ => false
  end.

(** [re.compile(extMatch, re.ASCII).match(s)] for the [extMatch] that
    goes with suffix [fmt]. *)
Definition extMatch (fmt s : string) : bool :=
  match match_front (pattern_of fmt) s with
  | Some rest => match_ext rest
  | None => false
  end.

Definition suffix_of_when (w : string) : string :=
  match parse_when w with
  | inr (_, sfx, _) => sfx
  | inl _ => EmptyString
  end.

(** The selection loop of [getFilesToDelete] in CPython 3.8: the name
    starts with [baseName + "."] and what follows matches [extMatch].
    Names are full paths here; [extMatch] matches no path separator. *)
Definition selects_py38 (base when : string) (_ : option (string -> string))
    (path : string) : bool :=
  let prefix := base +:+ "." in
  let plen := String.length prefix in
  String.eqb (String.substring 0 plen path) prefix
  && extMatch (suffix_of_when when) (String.substring plen (String.length path - plen) path).

Definition havana : Platform := {| zone := tz_havana_2021; selects := selects_py38 |}.
Definition utc_py38 : Platform := {| zone := tz_utc; selects := selects_py38 |}.

(** A directory holding one log file. *)
Definition fs0 : World :=
  {| files := {[ "/var/log/app.log" := "old" +:+ LF ]}; stdout := []; calls := [] |}.

(** A handler on that file as [__init__] builds it, with every field open. *)
Definition mk (maxBytes backupCount : Z) (when : string) (interval : Z) (utc : bool)
    (rolloverAt : Z) (header : option string) (delay : bool) (stream : option string)
  : Handler :=
  {| baseFilename := "/var/log/app.log"; mode := ModeA; maxBytes := maxBytes;
     backupCount := backupCount; when := when; interval := interval; utc := utc;
     suffix := "%Y-%m-%d"; dayOfWeek := 0; rolloverAt := rolloverAt;
     header := header; delay := delay; stream := stream;
     namer := None; rotator := None |}.

End Examples.
Export Examples.

(** ** The specification's wording, for comparison *)

Module Spec.

(** The size of the current segment as the size trigger measures it:
    the length of the file behind the stream, which is opened first
    when the handler has none. *)
Definition segment_size (h : Handler) (w : World) : Z :=
  match stream h, mode h with
  | Some s, _ => Z.of_nat (String.length (default EmptyString (files w !! s)))
  | None, ModeA =>
      Z.of_nat (String.length (default EmptyString (files w !! baseFilename h)))
  | None, ModeW => 0
  end.

(** [shouldRotate] as the specification words it: the segment size plus
    the pending record size exceeds the threshold, or [now >= rolloverAt]. *)
Definition shouldRotate_spec (currentSegmentSize pendingRecordSize threshold
    now rolloverAt : Z) : bool :=
  (currentSegmentSize + pendingRecordSize >? threshold) || (now >=? rolloverAt).

(** The compensation as the specification words it: the flag sampled at
    the start of the segment being closed, against the flag at
    [nextTime]; minus an hour when daylight saving has become active,
    plus an hour when it has ended. *)
Definition compensate_spec (P : Platform) (h : Handler) (segmentStart nextTime : Z) : Z :=
  if (String.eqb (when h) "MIDNIGHT" || startswith "W" (when h)) && negb (utc h) then
    let before := isdst (zone P) segmentStart in
    let after := isdst (zone P) nextTime in
    if Bool.eqb before after then nextTime
    else if after then nextTime - 3600 else nextTime + 3600
  else nextTime.

(** The compensation with the flag sampled at the time of the rollover
    call instead. *)
Definition compensate_now (P : Platform) (h : Handler) (now nextTime : Z) : Z :=
  if (String.eqb (when h) "MIDNIGHT" || startswith "W" (when h)) && negb (utc h) then
    let before := isdst (zone P) now in
    let after := isdst (zone P) nextTime in
    if Bool.eqb before after then nextTime
    else if after then nextTime - 3600 else nextTime + 3600
  else nextTime.

(** The directory entries [getFilesToDelete] selects. *)
Definition selected (P : Platform) (h : Handler) (w : World) : list string :=
  filter (λ p, selects P (baseFilename h) (when h) (namer h) p)
         (map_to_list (files w)).*1.


End Spec.
Export Spec.

(** ** Scenarios *)

Module Scenarios.

Definition base : string := "/var/log/app.log".

Definition handler_of (r : Res Handler) (d : Handler) : Handler :=
  match r with Ok h _ => h | _ => d end.

Definition world_of {A : Type} (r : Res A) (d : World) : World :=
  match r with Ok _ w => w | _ => d end.

Definition names (w : World) : list string := sorted (map_to_list (files w)).*1.

(** Times of March 2021, in seconds since the epoch. *)
Definition mar13_0000_utc : Z := 1615593600.
Definition mar14_0000_utc : Z := 1615680000.
Definition mar15_0000_utc : Z := 1615766400.
(** 13 March 23:30, 14 March 00:00 (the clock then reads 01:00) and
    14 March 01:01:40, in Havana. *)
Definition mar13_2330_havana : Z := 1615696200.
Definition mar14_0000_havana : Z := 1615698000.
Definition mar14_0101_havana : Z := 1615698100.

(** Daily rotation in UTC, two backups kept; the segment being written
    was started on 13 March. *)
Definition daily (backupCount : Z) (header : option string) (delay : bool)
    (stream : option string) : Handler :=
  mk 50 backupCount "D" 86400 true mar14_0000_utc header delay stream.

(** A second rollover for the same day: the first numbered name of
    13 March is taken. *)
Definition fs_rolled_today : World :=
  {| files := {[ base := "new" +:+ LF;
                 base +:+ ".2021-03-13.001" := "old" +:+ LF ]};
     stdout := []; calls := [] |}.

(** Two backups of earlier days are on disk. *)
Definition fs_two_backups : World :=
  {| files := {[ base := "new" +:+ LF;
                 base +:+ ".2021-03-10.001" := "a";
                 base +:+ ".2021-03-11.001" := "b" ]};
     stdout := []; calls := [] |}.

(** Rotation at local midnight in Havana, next due at the midnight at
    which daylight saving starts. *)
Definition nightly : Handler :=
  mk 50 2 "MIDNIGHT" 86400 false mar14_0000_havana None false (Some base).

End Scenarios.
Export Scenarios.

(** ** Archived segments *)

Module Archives.

Fixpoint all_digits (s : string) : bool :=
  match s with
  | EmptyString => true
  | String c r => is_digit c && all_digits r
  end.

(** The names of the archived segments of a destination: the base path,
    a time stamp in the handler's suffix format, and the number that
    ["%s.%03d"] appends, each joined by a dot. *)
Definition archived_name (base sfx path : string) : bool :=
  let prefix := base +:+ "." in
  let plen := String.length prefix in
  String.eqb (String.substring 0 plen path) prefix
  && match match_front (pattern_of sfx)
             (String.substring plen (String.length path - plen) path) with
     | Some (String c number) =>
         Ascii.eqb c "." && (3 <=? String.length number)%nat && all_digits number
     | _ => false
     end.

(** The archived segments of a handler's destination that exist. *)
Definition archives (h : Handler) (w : World) : list string :=
  filter (λ p, archived_name (baseFilename h) (suffix h) p) (map_to_list (files w)).*1.




End Archives.
Export Archives.

(** ** More handlers and directories *)

Module MoreScenarios.

(** Daily rotation in UTC with a unit count of zero, as [__init__]
    accepts it: the interval is 0 seconds. *)
Definition daily_every_zero_days : Handler :=
  mk 50 2 "D" 0 true mar14_0000_utc None false (Some base).

(** A directory with two dated backups and two files of other names. *)
Definition fs_mixed : World :=
  {| files := {[ base := "new" +:+ LF;
                 base +:+ ".2021-03-10.001" := "a";
                 base +:+ ".2021-03-11.001" := "b";
                 base +:+ ".notes" := "n";
                 "/var/log/other.log" := "o" ]};
     stdout := []; calls := [] |}.


(** An empty directory. *)
Definition fs_empty : World := {| files := ∅; stdout := []; calls := [] |}.

End MoreScenarios.
Export MoreScenarios.

(** * Properties *)

(** ** The state monad *)

Lemma bind_Ok {A B} (c : M A) (f : A → M B) (w w' : World) (b : B) :
  (c ≫= f) w = Ok b w' ↔ ∃ a w1, c w = Ok a w1 ∧ f a w1 = Ok b w'.
Proof.
  unfold mbind, M_bind. split.
  - destruct (c w) as [a w1| |]; try discriminate. eauto.
  - intros (a & w1 & -> & ?). done.
Qed.

Lemma ret_Ok {A} (a b : A) (w w' : World) :
  mret (M := M) a w = Ok b w' ↔ a = b ∧ w = w'.
Proof. unfold mret, M_ret. split; [by inversion 1 | by intros [-> ->]]. Qed.

Lemma string_app_nil_r (s : string) : s +:+ EmptyString = s.
Proof.
  induction s as [|c s IH]; [done|].
  change (String c (s +:+ EmptyString) = String c s). by rewrite IH.
Qed.

Lemma string_app_length (s t : string) :
  String.length (s +:+ t) = (String.length s + String.length t)%nat.
Proof.
  induction s as [|c s IH]; [done|].
  change (S (String.length (s +:+ t)) = S (String.length s + String.length t)).
  by rewrite IH.
Qed.

(** A name extended by a dot and more is another name. *)
Lemma string_app_dot_ne (s t : string) : s +:+ "." +:+ t ≠ s.
Proof.
  intros H. apply (f_equal String.length) in H.
  rewrite !string_app_length in H. simpl in H. lia.
Qed.

(** ** C3: the rotation predicate *)

(** C3 (as the code has it): [shouldRollover] always returns, and its
    answer is true exactly when the size threshold is positive and the
    segment size plus the length of the record with its line terminator
    reaches or exceeds it, or when [now >= rolloverAt]. *)
Theorem C3_shouldRollover_size_or_time (h : Handler) (record : string) (now : Z)
    (w : World) :
  ∃ h' w',
    shouldRollover h record now w
    = Ok (h', (0 <? maxBytes h)
              && (segment_size h w + Z.of_nat (String.length (record +:+ LF))
                  >=? maxBytes h)
              || (now >=? rolloverAt h)) w'.
Proof.
  unfold shouldRollover, RotatingFileHandler_shouldRollover, segment_size,
    TimedRotatingFileHandler_shouldRollover, _open, open_file, stream_tell_end,
    mbind, M_bind, mret, M_ret.
  destruct (stream h) as [s|] eqn:Hs; simpl.
  - rewrite Hs. simpl. destruct (0 <? maxBytes h); simpl.
    + destruct (_ >=? maxBytes h); simpl; [eauto|].
      destruct (now >=? rolloverAt h); eauto.
    + destruct (now >=? rolloverAt h); eauto.
  - destruct (0 <? maxBytes h); simpl.
    + destruct (mode h), (files w !! baseFilename h) as [c|] eqn:Hc; simpl;
        rewrite ?Hc, ?lookup_insert_eq; simpl;
        destruct (_ >=? maxBytes h); simpl; eauto;
        destruct (now >=? rolloverAt h); eauto.
    + destruct (now >=? rolloverAt h); eauto.
Qed.

(** C3 (as stated) fails at the threshold itself and with the size
    trigger disabled: a segment of 4 bytes and a record of 6 reach the
    threshold 10 without exceeding it, and [shouldRollover] answers
    true; with [maxBytes = 0] the same sizes exceed the threshold, and
    [shouldRollover] answers false. *)
Lemma C3_differs_from_strict_excess :
  let now := 1615690000 in
  let h := mk 10 2 "D" 86400 false 2000000000 None false (Some "/var/log/app.log") in
  let h0 := mk 0 2 "D" 86400 false 2000000000 None false (Some "/var/log/app.log") in
  (shouldRotate_spec (segment_size h fs0) 6 (maxBytes h) now (rolloverAt h) = false
   ∧ shouldRollover h "hello" now fs0 = Ok (h, true) fs0)
  ∧ (shouldRotate_spec (segment_size h0 fs0) 6 (maxBytes h0) now (rolloverAt h0) = true
     ∧ shouldRollover h0 "hello" now fs0 = Ok (h0, false) fs0).
Proof. repeat split; reflexivity. Qed.

(** ** C8: construction *)

Lemma FileHandler_init_Ok (filename : string) (m : open_mode) (delay : bool) (w : World) :
  ∃ w', FileHandler_init filename m delay w
        = Ok (if delay then None else Some filename) w'
        ∧ stdout w' = stdout w
        ∧ (delay = true → w' = w)
        ∧ (delay = false →
           files w' = match m, files w !! filename with
                      | ModeA, Some _ => files w
                      | _, _ => <[filename := EmptyString]> (files w)
                      end).
Proof.
  unfold FileHandler_init. destruct delay.
  - exists w. repeat split; try done.
  - unfold open_file, mbind, M_bind, mret, M_ret. eexists. repeat split; try done.
Qed.

(** C8 (as the code has it): construction checks nothing but [when].
    Whatever the size threshold, the retention count and the interval
    are, negative ones included, it returns a handler that carries them
    when [when] names a unit, and raises [ValueError] otherwise. *)
Theorem C8_init_validates_only_when (P : Platform) (filename : string)
    (mode : open_mode) (maxBytes backupCount : Z) (delay : bool) (when : string)
    (interval : Z) (utc : bool) (header : option string) (now mtime : Z) (w : World) :
  match parse_when (upper when) with
  | inr (unit, _, _) =>
      ∃ h w', __init__ P filename mode maxBytes backupCount delay when interval utc
                header now mtime w = Ok h w'
              ∧ Handler.maxBytes h = maxBytes
              ∧ Handler.backupCount h = backupCount
              ∧ Handler.interval h = unit * interval
  | inl e =>
      ∃ w', __init__ P filename mode maxBytes backupCount delay when interval utc
              header now mtime w = Raise e w'
  end.
Proof.
  unfold __init__.
  destruct (FileHandler_init_Ok filename (if 0 <? maxBytes then ModeA else mode) delay w)
    as (w1 & E1 & _).
  destruct (FileHandler_init_Ok filename ModeA delay w1) as (w2 & E2 & _).
  unfold mbind, M_bind at 1. rewrite E1.
  unfold mbind, M_bind at 1. rewrite E2.
  destruct (parse_when (upper when)) as [e|[[unit sfx] dow]].
  - by exists w2.
  - unfold mbind, M_bind, os_path_exists, mret, M_ret, stream_write.
    destruct delay, header; simpl; eauto 10.
Qed.

(** C8 (as stated) fails: a negative size threshold, retention count and
    interval are all accepted, and construction returns a handler. *)
Lemma C8_negative_configuration_accepted :
  match __init__ utc_py38 "/var/log/app.log" ModeA (-1) (-1) false "D" (-1) false None
          1615690000 1615680000 fs0 with
  | Ok h _ => maxBytes h = -1 ∧ backupCount h = -1 ∧ interval h = -86400
  | _ => False
  end.
Proof. vm_compute. done. Qed.

(** ** The directory as a list of names *)

Section Keys.
Implicit Types (m : gmap string string) (p : string).

Lemma keys_delete m p :
  is_Some (m !! p) → p :: (map_to_list (delete p m)).*1 ≡ₚ (map_to_list m).*1.
Proof.
  intros [c Hc]. rewrite <- (map_to_list_delete m p c Hc). done.
Qed.

Lemma keys_insert_absent m p c :
  m !! p = None → (map_to_list (<[p := c]> m)).*1 ≡ₚ p :: (map_to_list m).*1.
Proof. intros Hp. by rewrite map_to_list_insert. Qed.





End Keys.

(** ** The steps of a rollover *)

Section Steps.
Variable P : Platform.
Implicit Types (h : Handler) (w : World) (l : list string).

Lemma close_stream_stream h : stream (close_stream h) = None.
Proof. unfold close_stream. by destruct (stream h) eqn:E. Qed.

Lemma close_stream_fields h :
  let h0 := close_stream h in
  baseFilename h0 = baseFilename h ∧ mode h0 = mode h ∧ maxBytes h0 = maxBytes h
  ∧ backupCount h0 = backupCount h ∧ when h0 = when h ∧ interval h0 = interval h
  ∧ utc h0 = utc h ∧ suffix h0 = suffix h ∧ dayOfWeek h0 = dayOfWeek h
  ∧ rolloverAt h0 = rolloverAt h ∧ header h0 = header h ∧ delay h0 = delay h
  ∧ namer h0 = namer h ∧ rotator h0 = rotator h.
Proof. unfold close_stream. destruct (stream h); repeat split. Qed.

Lemma archive_name_close h now :
  archive_name P (close_stream h) now = archive_name P h now.
Proof. unfold close_stream. by destruct (stream h). Qed.

(** The search changes nothing, and a name it returns is free. *)
Lemma find_sfn_Ok fuel h dfn n sfn w s w' :
  find_sfn fuel h dfn n sfn w = Ok s w' → w' = w ∧ files w !! s = None.
Proof.
  revert sfn. induction fuel as [|fuel IH]; intros sfn; [discriminate|].
  simpl. unfold mbind, M_bind, os_path_exists.
  destruct (files w !! sfn) eqn:E.
  - apply IH.
  - intros [= <- <-]. done.
Qed.

Lemma find_sfn_not_Raise fuel h dfn n sfn w e w' :
  find_sfn fuel h dfn n sfn w ≠ Raise e w'.
Proof.
  revert sfn. induction fuel as [|fuel IH]; intros sfn; [discriminate|].
  simpl. unfold mbind, M_bind, os_path_exists.
  destruct (files w !! sfn) eqn:E; [apply IH | discriminate].
Qed.

Lemma find_sfn_free fuel h dfn n sfn w :
  files w !! sfn = None → find_sfn (S fuel) h dfn n sfn w = Ok sfn w.
Proof.
  intros E. simpl. unfold mbind, M_bind, os_path_exists. by rewrite E.
Qed.

(** When the first name is taken the loop tests it again and again. *)
Lemma find_sfn_stuck fuel h dfn n w :
  is_Some (files w !! rotation_filename h (dfn +:+ "." +:+ fmt_03d n)) →
  find_sfn fuel h dfn n (rotation_filename h (dfn +:+ "." +:+ fmt_03d n)) w = Diverge.
Proof.
  intros [c Hc]. induction fuel as [|fuel IH]; [done|].
  simpl. unfold mbind, M_bind, os_path_exists. by rewrite Hc.
Qed.

Lemma remove_each_Ok l w u w' :
  remove_each l w = Ok u w' →
  (l ++ (map_to_list (files w')).*1)%list ≡ₚ (map_to_list (files w)).*1
  ∧ stdout w' = stdout w
  ∧ calls w' = (calls w ++ (SysRemove <$> l))%list
  ∧ ∀ p, p ∉ l → files w' !! p = files w !! p.
Proof.
  revert w. induction l as [|a l IH]; intros w; simpl.
  - intros [= _ <-]. rewrite app_nil_r. done.
  - unfold mbind, M_bind, os_remove.
    destruct (files w !! a) as [c|] eqn:Ha; [|discriminate].
    intros H. apply IH in H as (Hk & Hs & Hc & Hf). simpl in *.
    repeat split.
    + rewrite Hk. by apply keys_delete.
    + done.
    + rewrite Hc, <- app_assoc. done.
    + intros p Hp. apply not_elem_of_cons in Hp as [Hpa Hpl].
      rewrite Hf by done. by apply lookup_delete_ne.
Qed.

Lemma remove_each_present l w :
  NoDup l → (∀ p, p ∈ l → is_Some (files w !! p)) → ∃ w', remove_each l w = Ok tt w'.
Proof.
  revert w. induction l as [|a l IH]; intros w Hnd Hin; simpl.
  - by exists w.
  - inversion Hnd as [|? ? Ha Hl]; subst.
    unfold mbind, M_bind, os_remove.
    destruct (Hin a) as [c Hc]; [by left|]. rewrite Hc.
    apply IH; [done|]. intros p Hp. simpl.
    rewrite lookup_delete_ne by (intros ->; done). apply Hin. by right.
Qed.

Lemma getFilesToDelete_Ok h w :
  getFilesToDelete P h w
  = Ok (if Z.of_nat (length (selected P h w)) <? backupCount h then []
        else take (Z.to_nat (Z.of_nat (length (sorted (selected P h w))) - backupCount h))
               (sorted (selected P h w))) w.
Proof.
  unfold getFilesToDelete, mbind, M_bind, os_listdir, selected.
  by destruct (_ <? backupCount h).
Qed.

Lemma sorted_perm l : sorted l ≡ₚ l.
Proof. apply merge_sort_Permutation. Qed.


Lemma tm_isdst_localtime (t : Z) : tm_isdst (localtime (zone P) t) = isdst (zone P) t.
Proof.
  unfold localtime, breakdown. by destruct (civil_from_days _) as [[y m] d].
Qed.

Lemma rotate_default h src dst w :
  rotator h = None →
  rotate h src dst w
  = match files w !! src with
    | Some c => Ok tt (with_files (<[dst := c]> (delete src (files w))) (SysRename src dst) w)
    | None => Ok tt w
    end.
Proof.
  intros Hr. unfold rotate. rewrite Hr.
  unfold mbind, M_bind, os_path_exists, os_rename.
  destruct (files w !! src) eqn:E; [by rewrite E | done].
Qed.

(** The content of the live file right after [_open]. *)
Lemma reopen_delayed h w : delay h = true → reopen h w = Ok h w.
Proof. intros Hd. unfold reopen. by rewrite Hd. Qed.

Lemma reopen_Ok h w :
  delay h = false →
  ∃ w', reopen h w = Ok (set_stream (Some (baseFilename h)) h) w'
        ∧ calls w' = (calls w ++ [SysOpen (baseFilename h) (mode h)])%list
        ∧ stdout w' = (stdout w ++ match header h with Some _ => ["Hi!"] | None => [] end)%list
        ∧ (∀ p, p ≠ baseFilename h → files w' !! p = files w !! p)
        ∧ files w' !! baseFilename h
          = Some (match mode h, files w !! baseFilename h with
                  | ModeA, Some c => c
                  | _, _ => EmptyString
                  end
                  +:+ match header h with Some hd => hd +:+ LF | None => EmptyString end).
Proof.
  intros Hd. unfold reopen, _open, open_file, print, stream_write. rewrite Hd. simpl.
  unfold mbind, M_bind, mret, M_ret. simpl.
  destruct (header h) as [hd|]; simpl; eexists; (split; [reflexivity|]); simpl.
  - repeat split; try done.
    + intros p Hp. rewrite lookup_insert_ne by done.
      destruct (mode h), (files w !! baseFilename h);
        rewrite ?lookup_insert_ne by done; done.
    + rewrite lookup_insert_eq.
      destruct (mode h), (files w !! baseFilename h) eqn:E;
        rewrite ?E, ?lookup_insert_eq; done.
  - rewrite app_nil_r. repeat split; try done.
    + intros p Hp.
      destruct (mode h), (files w !! baseFilename h);
        rewrite ?lookup_insert_ne by done; done.
    + destruct (mode h), (files w !! baseFilename h) eqn:E;
        rewrite ?E, ?lookup_insert_eq; simpl; by rewrite ?string_app_nil_r.
Qed.

Lemma computeRollover_set_stream s h t :
  computeRollover P (set_stream s h) t = computeRollover P h t.
Proof. reflexivity. Qed.

Lemma computeRollover_close h t :
  computeRollover P (close_stream h) t = computeRollover P h t.
Proof. unfold close_stream. by destruct (stream h). Qed.

Lemma dst_adjust_set_stream s h d t :
  dst_adjust P (set_stream s h) d t = dst_adjust P h d t.
Proof. reflexivity. Qed.

Lemma dst_adjust_close h d t : dst_adjust P (close_stream h) d t = dst_adjust P h d t.
Proof. unfold close_stream. by destruct (stream h). Qed.

(** A rollover that returns has gone through its three steps. *)
Lemma doRollover_Ok fuel h now w h' w' :
  doRollover P fuel h now w = Ok h' w' →
  ∃ u w1 h1 nr,
    archive P fuel (close_stream h) (archive_name P h now) w = Ok u w1
    ∧ reopen (close_stream h) w1 = Ok h1 w'
    ∧ advance fuel (interval h) now (computeRollover P h now) = Some nr
    ∧ h' = set_rolloverAt (dst_adjust P h (isdst (zone P) now) nr) h1.
Proof.
  unfold doRollover. rewrite archive_name_close, tm_isdst_localtime.
  intros H. apply bind_Ok in H as (u & w1 & Ha & H).
  apply bind_Ok in H as (h1 & w2 & Hr & H).
  apply bind_Ok in H as (r & w3 & Hn & H).
  apply ret_Ok in H as [<- <-].
  unfold next_rollover in Hn.
  assert (interval h1 = interval h ∧ computeRollover P h1 now = computeRollover P h now
          ∧ ∀ d t, dst_adjust P h1 d t = dst_adjust P h d t) as (Ei & Ec & Ed).
  { destruct (delay (close_stream h)) eqn:Hd.
    - rewrite reopen_delayed in Hr by done. inversion Hr; subst.
      destruct (close_stream_fields h) as (_&_&_&_&_&Hi&_).
      split; [done|]. split; [apply computeRollover_close|]. apply dst_adjust_close.
    - destruct (reopen_Ok (close_stream h) w1 Hd) as (w0 & Hr' & _).
      rewrite Hr' in Hr. inversion Hr; subst.
      destruct (close_stream_fields h) as (_&_&_&_&_&Hi&_).
      split; [done|]. split.
      + rewrite computeRollover_set_stream. apply computeRollover_close.
      + intros. rewrite dst_adjust_set_stream. apply dst_adjust_close. }
  rewrite Ei, Ec in Hn.
  destruct (advance fuel (interval h) now (computeRollover P h now)) as [nr|] eqn:Hadv;
    [|discriminate].
  apply ret_Ok in Hn as [<- <-]. rewrite Ed.
  exists u, w1, h1, nr. done.
Qed.

End Steps.

(** ** Retention: the bound that pruning keeps *)

Section Retention.
Variable P : Platform.
Implicit Types (h : Handler) (w : World).

(** A rollover changes the stream and the rollover time, nothing else
    of the handler. *)
Lemma doRollover_config fuel h now w h' w' :
  doRollover P fuel h now w = Ok h' w' →
  baseFilename h' = baseFilename h ∧ when h' = when h ∧ namer h' = namer h
  ∧ backupCount h' = backupCount h ∧ header h' = header h ∧ delay h' = delay h.
Proof.
  intros H. apply doRollover_Ok in H as (u & w1 & h1 & nr & _ & Hr & _ & ->).
  destruct (close_stream_fields h) as (Hb&_&_&Hn&Hw&_&_&_&_&_&Hh&Hd&Hna&_).
  destruct (delay (close_stream h)) eqn:E.
  - rewrite reopen_delayed in Hr by done. inversion Hr; subst.
    repeat split; simpl; congruence.
  - destruct (reopen_Ok (close_stream h) w1 E) as (w0 & Hr' & _).
    rewrite Hr' in Hr. inversion Hr; subst.
    repeat split; simpl; congruence.
Qed.





End Retention.

(** ** The archive step in its two modes *)

Section Archive.
Variable P : Platform.
Implicit Types (h : Handler) (w : World).

Lemma keys_elem (m : gmap string string) (p : string) :
  p ∈ (map_to_list m).*1 → is_Some (m !! p).
Proof.
  intros Hp. apply list_elem_of_fmap in Hp as ([k c] & -> & Hkc).
  apply elem_of_map_to_list in Hkc. simpl. eauto.
Qed.

Lemma remove_each_stays_absent l w u w' p :
  remove_each l w = Ok u w' → files w !! p = None → files w' !! p = None.
Proof.
  revert w. induction l as [|a l IH]; intros w; simpl.
  - by intros [= _ <-].
  - unfold mbind, M_bind, os_remove.
    destruct (files w !! a) as [c|] eqn:Ha; [|discriminate].
    intros H Hp. apply (IH _ H). simpl.
    destruct (decide (a = p)) as [->|Hne];
      [apply lookup_delete_eq | by rewrite lookup_delete_ne].
Qed.

(** Whatever the search returns is the name it started from. *)
Lemma find_sfn_first fuel h dfn n w s w' :
  find_sfn fuel h dfn n (rotation_filename h (dfn +:+ "." +:+ fmt_03d n)) w = Ok s w' →
  s = rotation_filename h (dfn +:+ "." +:+ fmt_03d n).
Proof.
  induction fuel as [|fuel IH]; [discriminate|].
  simpl. unfold mbind, M_bind, os_path_exists.
  destruct (files w !! _) eqn:E; [apply IH | by intros [= <- _]].
Qed.

Lemma archive_numbered_Ok fuel h dfn w u w' :
  0 < backupCount h → rotator h = None →
  archive P fuel h dfn w = Ok u w' →
  let sfn := rotation_filename h (dfn +:+ "." +:+ fmt_03d 1) in
  files w !! sfn = None
  ∧ stdout w' = stdout w
  ∧ (∃ removed,
       calls w' = (calls w
                   ++ match files w !! baseFilename h with
                      | Some _ => [SysRename (baseFilename h) sfn]
                      | None => []
                      end
                   ++ (SysRemove <$> removed))%list)
  ∧ (sfn ≠ baseFilename h → files w' !! baseFilename h = None).
Proof.
  intros HN Hrot. unfold archive.
  destruct (0 <? backupCount h) eqn:E; [|lia].
  intros H. apply bind_Ok in H as (s & w0 & Hf & H).
  pose proof (find_sfn_first _ _ _ _ _ _ _ Hf) as ->.
  apply find_sfn_Ok in Hf as [-> Hfree].
  apply bind_Ok in H as (u1 & w1 & Hr & H).
  apply bind_Ok in H as (l & w2 & Hl & H).
  rewrite getFilesToDelete_Ok in Hl. inversion Hl; subst w2; clear Hl.
  rewrite rotate_default in Hr by done.
  pose proof (remove_each_stays_absent _ _ _ _ (baseFilename h) H) as Hb.
  apply remove_each_Ok in H as (_ & Hs & Hc & _).
  simpl. split; [done|].
  destruct (files w !! baseFilename h) as [c|] eqn:Ec;
    inversion Hr; subst w1; clear Hr; simpl in *.
  - split; [done|]. split; [eexists; by rewrite Hc, <- app_assoc|].
    intros Hne. apply Hb. rewrite lookup_insert_ne by done. apply lookup_delete_eq.
  - split; [done|]. split; [eexists; by rewrite Hc|].
    intros _. by apply Hb.
Qed.

(** The pruning of lines 77-78 removes files that are there, each once. *)
Lemma prune_returns h w :
  ∃ w', (getFilesToDelete P h ≫= remove_each) w = Ok tt w'.
Proof.
  unfold mbind, M_bind. rewrite getFilesToDelete_Ok.
  apply remove_each_present.
  - destruct (_ <? backupCount h); [constructor|].
    assert (NoDup (sorted (selected P h w))) as Hnd.
    { rewrite sorted_perm. apply NoDup_filter, NoDup_fst_map_to_list. }
    rewrite <- (take_drop
      (Z.to_nat (Z.of_nat (length (sorted (selected P h w))) - backupCount h))
      (sorted (selected P h w))) in Hnd.
    by apply NoDup_app in Hnd as [? _].
  - intros p Hp. apply keys_elem.
    destruct (_ <? backupCount h); [by apply elem_of_nil in Hp|].
    assert (p ∈ sorted (selected P h w)) as Hp'.
    { rewrite <- (take_drop
        (Z.to_nat (Z.of_nat (length (sorted (selected P h w))) - backupCount h))
        (sorted (selected P h w))).
      apply elem_of_app. by left. }
    rewrite sorted_perm in Hp'. unfold selected in Hp'.
    by apply list_elem_of_filter in Hp' as [_ ?].
Qed.

Lemma archive_numbered_returns fuel h dfn w :
  0 < backupCount h → rotator h = None →
  files w !! rotation_filename h (dfn +:+ "." +:+ fmt_03d 1) = None →
  ∃ w', archive P (S fuel) h dfn w = Ok tt w'.
Proof.
  intros HN Hrot Hfree. unfold archive.
  destruct (0 <? backupCount h) eqn:E; [|lia].
  unfold mbind, M_bind at 1. rewrite find_sfn_free by done.
  unfold mbind, M_bind at 1. rewrite rotate_default by done.
  destruct (files w !! baseFilename h); apply prune_returns.
Qed.

Lemma archive_overwrite fuel h dfn w :
  backupCount h ≤ 0 → rotator h = None → dfn ≠ baseFilename h →
  ∃ w', archive P fuel h dfn w = Ok tt w'
        ∧ stdout w' = stdout w
        ∧ calls w' = (calls w
                      ++ match files w !! dfn with
                         | Some _ => [SysRemove dfn]
                         | None => []
                         end
                      ++ match files w !! baseFilename h with
                         | Some _ => [SysRename (baseFilename h) dfn]
                         | None => []
                         end)%list
        ∧ files w' !! dfn = files w !! baseFilename h
        ∧ files w' !! baseFilename h = None
        ∧ ∀ p, p ≠ dfn → p ≠ baseFilename h → files w' !! p = files w !! p.
Proof.
  intros HN Hrot Hne. unfold archive.
  destruct (0 <? backupCount h) eqn:E; [lia|].
  unfold mbind, M_bind, os_path_exists, os_remove.
  destruct (files w !! dfn) as [c|] eqn:Ed; rewrite ?Ed; simpl;
    rewrite rotate_default by done; simpl.
  - rewrite lookup_delete_ne by done.
    destruct (files w !! baseFilename h) as [c'|] eqn:Eb; eexists;
      (split; [reflexivity|]); simpl; repeat split;
      rewrite ?app_nil_r, <- ?app_assoc; try done.
    + apply lookup_insert_eq.
    + rewrite lookup_insert_ne by done. apply lookup_delete_eq.
    + intros p H1 H2. by rewrite lookup_insert_ne, !lookup_delete_ne.
    + apply lookup_delete_eq.
    + by rewrite lookup_delete_ne.
    + intros p H1 H2. by rewrite lookup_delete_ne.
  - destruct (files w !! baseFilename h) as [c'|] eqn:Eb; eexists;
      (split; [reflexivity|]); simpl; repeat split;
      rewrite ?app_nil_r; try done.
    + apply lookup_insert_eq.
    + rewrite lookup_insert_ne by done. apply lookup_delete_eq.
    + intros p H1 H2. by rewrite lookup_insert_ne, lookup_delete_ne.
Qed.

End Archive.

(** ** Termination of a rollover *)

Section Returns.
Variable P : Platform.
Implicit Types (h : Handler) (w : World).

(** The loop of lines 90-91 leaves a time after [currentTime] ... *)
Lemma advance_Some fuel i now r r' : advance fuel i now r = Some r' → now < r'.
Proof.
  revert r. induction fuel as [|fuel IH]; intros r; [discriminate|].
  simpl. destruct (r <=? now) eqn:E; [apply IH|].
  intros [= <-]. lia.
Qed.

(** ... and ends when the interval is positive. *)
Lemma advance_returns i now r :
  0 < i → ∃ n, ∀ fuel, (n ≤ fuel)%nat → ∃ r', advance fuel i now r = Some r'.
Proof.
  intros Hi.
  assert (Hk : ∀ k r, now - r < Z.of_nat k * i → ∃ r', advance (S k) i now r = Some r').
  { induction k as [|k IH]; intros r0 Hr; simpl.
    - destruct (r0 <=? now) eqn:E; [lia | eauto].
    - destruct (r0 <=? now) eqn:E; [|eauto].
      apply IH. lia. }
  exists (S (S (Z.to_nat (now - r)))). intros [|k] Hf; [lia|].
  apply Hk. nia.
Qed.

(** With a positive interval the loop does not run at all when
    [computeRollover] already lies ahead. *)
Lemma advance_ahead fuel i now r : now < r → advance (S fuel) i now r = Some r.
Proof. intros Hr. simpl. destruct (r <=? now) eqn:E; [lia | done]. Qed.

Lemma reopen_handler h w h1 w' :
  reopen h w = Ok h1 w' →
  interval h1 = interval h ∧ computeRollover P h1 = computeRollover P h
  ∧ dst_adjust P h1 = dst_adjust P h.
Proof.
  intros Hr. destruct (delay h) eqn:Hd.
  - rewrite reopen_delayed in Hr by done. by inversion Hr.
  - destruct (reopen_Ok h w Hd) as (w0 & Hr' & _).
    rewrite Hr' in Hr. by inversion Hr.
Qed.

Lemma doRollover_intro fuel h now w u w1 h1 w2 nr :
  archive P fuel (close_stream h) (archive_name P h now) w = Ok u w1 →
  reopen (close_stream h) w1 = Ok h1 w2 →
  advance fuel (interval h) now (computeRollover P h now) = Some nr →
  doRollover P fuel h now w
  = Ok (set_rolloverAt (dst_adjust P h (isdst (zone P) now) nr) h1) w2.
Proof.
  intros Ha Hr Hn. unfold doRollover.
  rewrite archive_name_close, tm_isdst_localtime.
  unfold mbind, M_bind at 1. rewrite Ha.
  unfold mbind, M_bind at 1. rewrite Hr.
  destruct (reopen_handler _ _ _ _ Hr) as (Ei & Ec & Ed).
  unfold mbind, M_bind, next_rollover.
  rewrite Ei, Ec, computeRollover_close, Ed.
  destruct (close_stream_fields h) as (_&_&_&_&_&->&_).
  rewrite Hn. unfold mret, M_ret. by rewrite dst_adjust_close.
Qed.

Lemma archive_name_ne h now :
  namer h = None → archive_name P h now ≠ baseFilename h.
Proof.
  intros Hn. unfold archive_name, rotation_filename. rewrite Hn.
  apply string_app_dot_ne.
Qed.

Lemma numbered_name_ne h now :
  namer h = None →
  rotation_filename h (archive_name P h now +:+ "." +:+ fmt_03d 1) ≠ baseFilename h.
Proof.
  intros Hn. unfold archive_name, rotation_filename. rewrite Hn.
  intros H. apply (f_equal String.length) in H.
  rewrite !string_app_length in H. simpl in H. lia.
Qed.

Lemma reopen_returns h w : ∃ h1 w', reopen h w = Ok h1 w'.
Proof.
  destruct (delay h) eqn:Hd.
  - exists h, w. by apply reopen_delayed.
  - destruct (reopen_Ok h w Hd) as (w' & Hr & _). eauto.
Qed.

(** A rollover returns, given enough fuel, when the handler has the
    default rotator and a positive interval, and either overwrites
    ([backupCount <= 0]) or finds the first numbered name free. *)
Lemma doRollover_returns h now w :
  rotator h = None → 0 < interval h →
  (0 < backupCount h →
   files w !! rotation_filename h (archive_name P h now +:+ "." +:+ fmt_03d 1) = None) →
  (backupCount h ≤ 0 → archive_name P h now ≠ baseFilename h) →
  ∃ n, ∀ fuel, (n ≤ fuel)%nat → ∃ h' w', doRollover P fuel h now w = Ok h' w'.
Proof.
  intros Hrot Hi Hfree Hne.
  destruct (advance_returns (interval h) now (computeRollover P h now) Hi) as [n Hn].
  exists (S n). intros [|fuel] Hf; [lia|].
  destruct (Hn (S fuel)) as [nr Hnr]; [lia|].
  destruct (close_stream_fields h) as (Hb&_&_&Hc&_&_&_&_&_&_&_&_&Hna&Hro).
  assert (∃ w1, archive P (S fuel) (close_stream h) (archive_name P h now) w = Ok tt w1)
    as [w1 Ha].
  { destruct (decide (0 < backupCount h)) as [HN|HN].
    - apply archive_numbered_returns; [lia | congruence |].
      unfold rotation_filename in *. rewrite Hna. by apply Hfree.
    - destruct (archive_overwrite P (S fuel) (close_stream h) (archive_name P h now) w)
        as (w1 & Ha & _); [lia | congruence | rewrite Hb; apply Hne; lia | eauto]. }
  destruct (reopen_returns (close_stream h) w1) as (h1 & w2 & Hr).
  do 2 eexists. by eapply doRollover_intro.
Qed.

(** More fuel does not change the result of a loop that has ended. *)
Lemma find_sfn_mono fuel fuel' h dfn n sfn w s w' :
  (fuel ≤ fuel')%nat →
  find_sfn fuel h dfn n sfn w = Ok s w' → find_sfn fuel' h dfn n sfn w = Ok s w'.
Proof.
  revert fuel' sfn. induction fuel as [|fuel IH]; intros fuel' sfn Hle; [discriminate|].
  destruct fuel' as [|fuel']; [lia|]. simpl.
  unfold mbind, M_bind, os_path_exists.
  destruct (files w !! sfn); [apply IH; lia | done].
Qed.

Lemma advance_mono fuel fuel' i now r r' :
  (fuel ≤ fuel')%nat → advance fuel i now r = Some r' → advance fuel' i now r = Some r'.
Proof.
  revert fuel' r. induction fuel as [|fuel IH]; intros fuel' r Hle; [discriminate|].
  destruct fuel' as [|fuel']; [lia|]. simpl.
  destruct (r <=? now); [apply IH; lia | done].
Qed.

Lemma archive_mono fuel fuel' h dfn w u w' :
  (fuel ≤ fuel')%nat →
  archive P fuel h dfn w = Ok u w' → archive P fuel' h dfn w = Ok u w'.
Proof.
  intros Hle. unfold archive. destruct (0 <? backupCount h); [|done].
  intros H. apply bind_Ok in H as (s & w0 & Hf & H).
  apply (find_sfn_mono _ fuel') in Hf; [|done].
  unfold mbind, M_bind at 1. by rewrite Hf.
Qed.

Lemma doRollover_mono fuel fuel' h now w h' w' :
  (fuel ≤ fuel')%nat →
  doRollover P fuel h now w = Ok h' w' → doRollover P fuel' h now w = Ok h' w'.
Proof.
  intros Hle H. apply doRollover_Ok in H as (u & w1 & h1 & nr & Ha & Hr & Hn & ->).
  eapply doRollover_intro; eauto using archive_mono, advance_mono.
Qed.

End Returns.

(** ** C1 and C10: the search for a numbered name *)

(** When the first numbered name is taken, the rollover never returns. *)
Lemma doRollover_stuck (P : Platform) (fuel : nat) (h : Handler) (now : Z) (w : World) :
  0 < backupCount h →
  is_Some (files w !! rotation_filename h (archive_name P h now +:+ "." +:+ fmt_03d 1)) →
  doRollover P fuel h now w = Diverge.
Proof.
  intros HN Hex. unfold doRollover, archive.
  destruct (close_stream_fields h) as (_&_&_&Hc&_&_&_&_&_&_&_&_&Hna&_).
  rewrite Hc. destruct (0 <? backupCount h) eqn:E; [|lia].
  rewrite archive_name_close.
  assert (∀ x, rotation_filename (close_stream h) x = rotation_filename h x) as Hrf.
  { intros x. unfold rotation_filename. by rewrite Hna. }
  rewrite Hrf. unfold mbind, M_bind at 1. unfold mbind, M_bind at 1.
  unfold mbind, M_bind at 1.
  rewrite <- Hrf at 1. rewrite <- Hrf in Hex.
  by rewrite (find_sfn_stuck fuel (close_stream h) (archive_name P h now) 1 w Hex).
Qed.

(** C1 (the code at the failing input): a second rollover for the same
    day, with a retention count of 2.  The name [dfn.001] is taken and
    [dfn.002] is free; [rotation_number] stays at 1, so the loop of
    lines 74-75 tests [dfn.001] again and again, and no amount of fuel
    lets the rollover return or raise. *)
Theorem C1_search_retries_first_name_forever :
  archive_name utc_py38 (daily 2 None false (Some base)) mar14_0000_utc
  = base +:+ ".2021-03-13"
  ∧ is_Some (files fs_rolled_today !! (base +:+ ".2021-03-13.001"))
  ∧ files fs_rolled_today !! (base +:+ ".2021-03-13.002") = None
  ∧ ¬ ∃ fuel : nat,
        doRollover utc_py38 fuel (daily 2 None false (Some base)) mar14_0000_utc
          fs_rolled_today ≠ Diverge.
Proof.
  split; [by vm_compute|]. split; [vm_compute; eauto|]. split; [by vm_compute|].
  intros [fuel H]. apply H. apply doRollover_stuck; [reflexivity|].
  vm_compute. eauto.
Qed.

(** That directory state comes about by itself: of three rollovers on
    one day (size-triggered, an hour apart) the first archives the
    segment of the day before and the second the first segment of the
    day, both under a free name; the third finds that name taken and
    never returns. *)
Example third_rollover_of_a_day_hangs :
  ¬ ∃ fuel : nat,
      doRollovers utc_py38 fuel (daily 2 None false (Some base))
        [mar14_0000_utc; mar14_0000_utc + 3600; mar14_0000_utc + 7200] fs0 ≠ Diverge.
Proof.
  intros [fuel H]. apply H. clear H.
  destruct fuel as [|fuel]; [done|].
  set (h0 := daily 2 None false (Some base)).
  set (r1 := doRollover utc_py38 1 h0 mar14_0000_utc fs0).
  assert (H1 : r1 = Ok (handler_of r1 h0) (world_of r1 fs0)) by (vm_compute; reflexivity).
  set (r2 := doRollover utc_py38 1 (handler_of r1 h0) (mar14_0000_utc + 3600)
               (world_of r1 fs0)).
  assert (H2 : r2 = Ok (handler_of r2 h0) (world_of r2 fs0)) by (vm_compute; reflexivity).
  apply (doRollover_mono _ 1 (S fuel)) in H1; [|lia].
  apply (doRollover_mono _ 1 (S fuel)) in H2; [|lia].
  unfold doRollovers. unfold mbind, M_bind at 1. rewrite H1.
  unfold mbind, M_bind at 1. rewrite H2.
  unfold mbind, M_bind at 1. rewrite doRollover_stuck; [done | by vm_compute |].
  vm_compute. eauto.
Qed.

(** C10: with a retention count above zero, the default namer and
    rotator, and no file at [dfn.001], every rollover that returns has
    renamed the base file to exactly [dfn.001], and that is its only
    rename, whatever other backups the directory holds; and with a
    positive interval the rollover does return. *)
Theorem C10_renamed_to_first_number (P : Platform) (h : Handler) (now : Z) (w : World)
    (c : string) :
  0 < backupCount h → namer h = None → rotator h = None →
  files w !! baseFilename h = Some c →
  files w !! (archive_name P h now +:+ ".001") = None →
  (∀ fuel h' w', doRollover P fuel h now w = Ok h' w' →
     ∃ removed,
       calls w' = (calls w
                   ++ SysRename (baseFilename h) (archive_name P h now +:+ ".001")
                      :: (SysRemove <$> removed)
                   ++ (if delay h then [] else [SysOpen (baseFilename h) (mode h)]))%list)
  ∧ (0 < interval h →
     ∃ n, ∀ fuel, (n ≤ fuel)%nat → ∃ h' w', doRollover P fuel h now w = Ok h' w').
Proof.
  intros HN Hna Hrot Hb Hfree. split.
  - intros fuel h' w' H.
    apply doRollover_Ok in H as (u & w1 & h1 & nr & Ha & Hr & _ & _).
    destruct (close_stream_fields h) as (Eb&Em&_&Ec&_&_&_&_&_&_&_&Ed&En&Er).
    apply archive_numbered_Ok in Ha; [|lia|congruence].
    destruct Ha as (_ & _ & (removed & Hc) & _).
    unfold rotation_filename in Hc. rewrite En, Hna, Eb, Hb in Hc.
    exists removed. destruct (delay h) eqn:Hd.
    + rewrite reopen_delayed in Hr by congruence. inversion Hr; subst.
      rewrite Hc. simpl. by rewrite app_nil_r.
    + destruct (reopen_Ok (close_stream h) w1) as (w2 & Hr' & Hc' & _); [congruence|].
      rewrite Hr' in Hr. inversion Hr; subst.
      rewrite Hc', Hc, Eb, Em. simpl. by rewrite <- !app_assoc.
  - intros Hi. apply doRollover_returns; try done.
    + intros _. unfold rotation_filename. by rewrite Hna.
    + lia.
Qed.

Lemma C10_renamed_to_first_number_witness :
  let h := daily 2 None false (Some base) in
  (0 < backupCount h ∧ namer h = None ∧ rotator h = None
   ∧ files fs_two_backups !! baseFilename h = Some ("new" +:+ LF)
   ∧ files fs_two_backups !! (archive_name utc_py38 h mar14_0000_utc +:+ ".001") = None)
  ∧ ∃ removed,
      calls (world_of (doRollover utc_py38 1 h mar14_0000_utc fs_two_backups) fs0)
      = SysRename base (base +:+ ".2021-03-13.001")
        :: ((SysRemove <$> removed) ++ [SysOpen base ModeA])%list.
Proof.
  split; [repeat split|].
  apply (proj1 (C10_renamed_to_first_number utc_py38 (daily 2 None false (Some base))
                  mar14_0000_utc fs_two_backups ("new" +:+ LF)
                  eq_refl eq_refl eq_refl eq_refl eq_refl)
           1%nat
           (handler_of (doRollover utc_py38 1 (daily 2 None false (Some base))
                          mar14_0000_utc fs_two_backups) nightly)).
  vm_compute. reflexivity.
Defined.

(** ** C7: overwrite mode *)

(** C7 (as the code has it): with a retention count of zero or less and
    the default namer and rotator, a rollover that returns has removed
    the file at [dfn] if there was one, then renamed the base file to
    [dfn] if there was one, with no number appended and no pruning: the
    file at [dfn] is the former base file and every other file, earlier
    archives under other names included, is as it was.  With a positive
    interval the rollover does return. *)
Theorem C7_overwrite_mode (P : Platform) (h : Handler) (now : Z) (w : World) :
  backupCount h ≤ 0 → namer h = None → rotator h = None →
  let dfn := archive_name P h now in
  (∀ fuel h' w', doRollover P fuel h now w = Ok h' w' →
     calls w' = (calls w
                 ++ match files w !! dfn with Some _ => [SysRemove dfn] | None => [] end
                 ++ match files w !! baseFilename h with
                    | Some _ => [SysRename (baseFilename h) dfn]
                    | None => []
                    end
                 ++ (if delay h then [] else [SysOpen (baseFilename h) (mode h)]))%list
     ∧ files w' !! dfn = files w !! baseFilename h
     ∧ ∀ p, p ≠ dfn → p ≠ baseFilename h → files w' !! p = files w !! p)
  ∧ (0 < interval h →
     ∃ n, ∀ fuel, (n ≤ fuel)%nat → ∃ h' w', doRollover P fuel h now w = Ok h' w').
Proof.
  intros HN Hna Hrot dfn. split.
  - intros fuel h' w' H.
    apply doRollover_Ok in H as (u & w1 & h1 & nr & Ha & Hr & _ & _).
    destruct (close_stream_fields h) as (Eb&Em&_&Ec&_&_&_&_&_&_&_&Ed&En&Er).
    destruct (archive_overwrite P fuel (close_stream h) dfn w)
      as (w1' & Ha' & _ & Hc & Hd & Hbn & Hp);
      [lia | congruence | rewrite Eb; by apply archive_name_ne |].
    fold dfn in Ha. rewrite Ha' in Ha. inversion Ha; subst w1'; clear Ha Ha'.
    rewrite Eb in *.
    destruct (delay h) eqn:Hdel.
    + rewrite reopen_delayed in Hr by congruence. inversion Hr; subst.
      rewrite Hc, app_nil_r. done.
    + destruct (reopen_Ok (close_stream h) w1) as (w2 & Hr' & Hc' & _ & Hf & _);
        [congruence|].
      rewrite Hr' in Hr. inversion Hr; subst. rewrite Eb, Em in *.
      rewrite Hc', Hc, <- !app_assoc. split; [done|].
      split.
      * rewrite Hf; [done | by apply archive_name_ne].
      * intros p H1 H2. rewrite Hf by done. by apply Hp.
  - intros Hi. apply doRollover_returns; try done; [lia|].
    intros _. by apply archive_name_ne.
Qed.

Lemma C7_overwrite_mode_witness :
  let h := daily 0 None false (Some base) in
  (backupCount h ≤ 0 ∧ namer h = None ∧ rotator h = None)
  ∧ files (world_of (doRollover utc_py38 1 h mar14_0000_utc fs0) fs0)
      !! (base +:+ ".2021-03-13") = Some ("old" +:+ LF).
Proof.
  split; [repeat split; by vm_compute|].
  apply (proj1 (proj2 (proj1 (C7_overwrite_mode utc_py38 (daily 0 None false (Some base))
                  mar14_0000_utc fs0 ltac:(by vm_compute) eq_refl eq_refl)
           1%nat
           (handler_of (doRollover utc_py38 1 (daily 0 None false (Some base))
                          mar14_0000_utc fs0) nightly)
           (world_of (doRollover utc_py38 1 (daily 0 None false (Some base))
                          mar14_0000_utc fs0) fs0)
           ltac:(vm_compute; reflexivity)))).
Defined.

(** C7 (as stated) fails: with a retention count of zero, rollovers on
    two successive days leave two archived files side by side; the
    second does not replace the first. *)
Lemma C7_archives_accumulate :
  backupCount (daily 0 None false (Some base)) = 0
  ∧ match doRollovers utc_py38 2 (daily 0 None false (Some base))
            [mar14_0000_utc; mar15_0000_utc] fs0 with
    | Ok _ w' =>
        files w' !! (base +:+ ".2021-03-13") = Some ("old" +:+ LF)
        ∧ files w' !! (base +:+ ".2021-03-14") = Some EmptyString
    | _ => False
    end.
Proof. split; [reflexivity|]. vm_compute. done. Qed.

(** ** C6 and C9: the header, and what a rollover prints *)

Lemma init_writes_header (P : Platform) (filename : string) (mode : open_mode)
    (maxBytes backupCount : Z) (when : string) (interval : Z) (utc : bool)
    (hd : string) (now mtime : Z) (w : World) :
  match parse_when (upper when) with
  | inr _ =>
      ∃ h w', __init__ P filename mode maxBytes backupCount false when interval utc
                (Some hd) now mtime w = Ok h w'
              ∧ stream h = Some filename
              ∧ files w' !! filename
                = Some (match (if 0 <? maxBytes then ModeA else mode),
                              files w !! filename with
                        | ModeA, Some c => c
                        | _, _ => EmptyString
                        end +:+ hd +:+ LF)
  | inl _ => True
  end.
Proof.
  unfold __init__, FileHandler_init, open_file, os_path_exists, stream_write.
  destruct (parse_when (upper when)) as [e|[[unit sfx] dow]] eqn:E; [done|].
  unfold mbind, M_bind, mret, M_ret. simpl.
  destruct (if 0 <? maxBytes then ModeA else mode), (files w !! filename) eqn:Ef;
    simpl; rewrite ?Ef, ?lookup_insert_eq; simpl;
    do 2 eexists; (split; [reflexivity|]); (split; [done|]); simpl;
    rewrite ?lookup_insert_eq, ?Ef; done.
Qed.

Lemma doRollover_segment (P : Platform) (fuel : nat) (h : Handler) (now : Z)
    (w : World) (h' : Handler) (w' : World) :
  namer h = None → rotator h = None →
  doRollover P fuel h now w = Ok h' w' →
  if delay h then stream h' = None ∧ files w' !! baseFilename h = None
  else stream h' = Some (baseFilename h)
       ∧ files w' !! baseFilename h
         = Some (match header h with Some hd => hd +:+ LF | None => EmptyString end)
       ∧ stdout w' = (stdout w ++ match header h with
                                  | Some _ => ["Hi!"]
                                  | None => []
                                  end)%list.
Proof.
  intros Hna Hrot H.
  apply doRollover_Ok in H as (u & w1 & h1 & nr & Ha & Hr & _ & ->).
  destruct (close_stream_fields h) as (Eb&Em&_&Ec&_&_&_&_&_&_&Eh&Ed&En&Er).
  assert (files w1 !! baseFilename h = None ∧ stdout w1 = stdout w) as [Hb Hs].
  { destruct (decide (0 < backupCount h)) as [HN|HN].
    - apply archive_numbered_Ok in Ha as (_ & Hs & _ & Hb); [|lia|congruence].
      split; [|done]. rewrite <- Eb. apply Hb.
      unfold rotation_filename. rewrite En, Hna, Eb.
      pose proof (numbered_name_ne P h now Hna) as Hne.
      unfold rotation_filename in Hne. by rewrite Hna in Hne.
    - destruct (archive_overwrite P fuel (close_stream h) (archive_name P h now) w)
        as (w1' & Ha' & Hs & _ & _ & Hb & _);
        [lia | congruence | rewrite Eb; by apply archive_name_ne |].
      rewrite Ha' in Ha. inversion Ha; subst w1'. by rewrite <- Eb. }
  destruct (delay h) eqn:Hd.
  - rewrite reopen_delayed in Hr by congruence. inversion Hr; subst. simpl.
    split; [apply close_stream_stream | done].
  - destruct (reopen_Ok (close_stream h) w1) as (w2 & Hr' & _ & Hs' & _ & Hf);
      [congruence|].
    rewrite Hr' in Hr. inversion Hr; subst. simpl.
    rewrite Eb, Eh in *. rewrite Hb in Hf.
    split; [done|]. split; [|by rewrite Hs', Hs].
    rewrite Hf. by destruct (mode (close_stream h)).
Qed.

(** C6 (as stated) fails: with deferred-open in effect and a header
    configured, a rollover leaves no stream and no file; the segment is
    then created by the next [emit], and the first bytes written to it
    are the record, not the header. *)
Lemma C6_deferred_segment_has_no_header :
  let h := daily 2 (Some "HDR") true None in
  header h = Some "HDR"
  ∧ match doRollover utc_py38 1 h mar14_0000_utc fs0 with
    | Ok h1 w1 =>
        stream h1 = None ∧ files w1 !! base = None
        ∧ match emit utc_py38 1 h1 "rec" (mar14_0000_utc + 60) w1 with
          | Ok _ w2 => files w2 !! base = Some ("rec" +:+ LF)
          | _ => False
          end
    | _ => False
    end.
Proof. split; [reflexivity|]. vm_compute. done. Qed.

(** C9 (what the code does): a rollover that rewrites the header, that
    is, with a header configured and deferred-open not in effect,
    prints the line [Hi!] on the console. *)
Theorem C9_rollover_prints (P : Platform) (fuel : nat) (h : Handler) (now : Z)
    (w : World) (h' : Handler) (w' : World) (hd : string) :
  namer h = None → rotator h = None → header h = Some hd → delay h = false →
  doRollover P fuel h now w = Ok h' w' →
  stdout w' = (stdout w ++ ["Hi!"])%list.
Proof.
  intros Hna Hrot Hh Hd H.
  pose proof (doRollover_segment P fuel h now w h' w' Hna Hrot H) as Hs.
  rewrite Hd, Hh in Hs. by destruct Hs as (_ & _ & ?).
Qed.

Lemma C9_rollover_prints_witness :
  let h := daily 2 (Some "HDR") false (Some base) in
  (namer h = None ∧ rotator h = None ∧ header h = Some "HDR" ∧ delay h = false)
  ∧ stdout (world_of (doRollover utc_py38 1 h mar14_0000_utc fs0) fs0) = ["Hi!"].
Proof.
  split; [repeat split|].
  apply (C9_rollover_prints utc_py38 1%nat (daily 2 (Some "HDR") false (Some base))
           mar14_0000_utc fs0
           (handler_of (doRollover utc_py38 1 (daily 2 (Some "HDR") false (Some base))
                          mar14_0000_utc fs0) nightly)
           _ "HDR" eq_refl eq_refl eq_refl eq_refl).
  vm_compute. reflexivity.
Defined.

(** ** C4 and C5: the next rollover time *)

Lemma dst_adjust_compensate (P : Platform) (h : Handler) (now nr : Z) :
  dst_adjust P h (isdst (zone P) now) nr = compensate_now P h now nr.
Proof.
  unfold dst_adjust, compensate_now, dst_shift. rewrite tm_isdst_localtime.
  destruct (_ && negb (utc h)); [|done].
  destruct (isdst (zone P) now), (isdst (zone P) nr); simpl; lia.
Qed.

(** Before the adjustment the new time lies after [now]; the adjustment
    moves it by at most an hour, and not at all in UTC or for a unit
    other than midnight and the days of the week. *)
Lemma rolloverAt_ahead_up_to_an_hour (P : Platform) (fuel : nat) (h : Handler) (now : Z)
    (w : World) (h' : Handler) (w' : World) :
  doRollover P fuel h now w = Ok h' w' →
  now - 3600 < rolloverAt h'
  ∧ ((String.eqb (when h) "MIDNIGHT" || startswith "W" (when h)) && negb (utc h) = false →
     now < rolloverAt h').
Proof.
  intros H. apply doRollover_Ok in H as (u & w1 & h1 & nr & _ & _ & Hn & ->).
  apply advance_Some in Hn. simpl. rewrite dst_adjust_compensate.
  unfold compensate_now. split.
  - destruct (_ && negb (utc h)); [|lia].
    destruct (Bool.eqb _ _); [lia|]. destruct (isdst (zone P) nr); lia.
  - intros ->. done.
Qed.

(** C4 (the code at the failing input): a nightly handler in Havana
    rolls over, for size, at 23:30 on the eve of the change to daylight
    saving time.  The next midnight is 1800 seconds ahead; the hour
    deducted afterwards leaves [rolloverAt] 1800 seconds before [now]. *)
Theorem C4_rolloverAt_falls_behind_now :
  match doRollover havana 1 nightly mar13_2330_havana fs0 with
  | Ok h' _ =>
      computeRollover havana nightly mar13_2330_havana = mar13_2330_havana + 1800
      ∧ rolloverAt h' = mar13_2330_havana - 1800
      ∧ rolloverAt h' ≤ mar13_2330_havana
  | _ => False
  end.
Proof. vm_compute. repeat split; discriminate. Qed.

(** C5 (as the code has it): the adjustment applies exactly for the
    midnight and weekly units in local time; it compares the flag
    sampled at the time of the rollover call with the flag at the new
    time, deducts 3600 seconds when daylight saving has become active
    and adds 3600 when it has ended.  The new time is the one the loop
    of lines 90-91 ends on, and with a positive interval it does end. *)
Theorem C5_compensation_from_flag_at_call (P : Platform) (h : Handler) (now : Z) :
  (∀ fuel w h' w',
     doRollover P fuel h now w = Ok h' w' →
     ∃ nextTime,
       advance fuel (interval h) now (computeRollover P h now) = Some nextTime
       ∧ rolloverAt h' = compensate_now P h now nextTime)
  ∧ (0 < interval h →
     ∃ n, ∀ fuel, (n ≤ fuel)%nat →
       ∃ nextTime, advance fuel (interval h) now (computeRollover P h now) = Some nextTime).
Proof.
  split.
  - intros fuel w h' w' H.
    apply doRollover_Ok in H as (u & w1 & h1 & nr & _ & _ & Hn & ->).
    exists nr. split; [done|]. simpl. apply dst_adjust_compensate.
  - apply advance_returns.
Qed.

Lemma C5_compensation_from_flag_at_call_witness :
  ∃ nextTime,
    advance 1 (interval nightly) mar13_2330_havana
      (computeRollover havana nightly mar13_2330_havana) = Some nextTime
    ∧ rolloverAt (handler_of (doRollover havana 1 nightly mar13_2330_havana fs0) nightly)
      = compensate_now havana nightly mar13_2330_havana nextTime.
Proof.
  apply (proj1 (C5_compensation_from_flag_at_call havana nightly mar13_2330_havana)
           1%nat fs0 _
           (world_of (doRollover havana 1 nightly mar13_2330_havana fs0) fs0)).
  vm_compute. reflexivity.
Defined.

(** C5 (as stated) fails: the segment being closed started in standard
    time and the rollover is called an hour into daylight saving time.
    The new time, the next midnight, is in daylight saving time as
    well: against the flag of the segment's start an hour would be
    deducted, the code compares with the flag at the call and leaves
    the new time as it is. *)
Lemma C5_flag_is_not_from_segment_start :
  let h := nightly in
  let now := mar14_0101_havana in
  isdst (zone havana) (rolloverAt h - interval h) = false
  ∧ isdst (zone havana) now = true
  ∧ match doRollover havana 1 h now fs0 with
    | Ok h' _ =>
        advance 1 (interval h) now (computeRollover havana h now) = Some 1615780800
        ∧ rolloverAt h' = 1615780800
        ∧ compensate_spec havana h (rolloverAt h - interval h) 1615780800 = 1615777200
    | _ => False
    end.
Proof. vm_compute. repeat split. Qed.

(** ** Retention, at work *)

(** The directory after two daily rollovers that found two backups of
    earlier days: the two newest archives are the ones kept. *)
Example two_newest_backups_kept :
  names (world_of (doRollovers utc_py38 1 (daily 2 None false (Some base))
                     [mar14_0000_utc; mar15_0000_utc] fs_two_backups) fs0)
  = [base; base +:+ ".2021-03-13.001"; base +:+ ".2021-03-14.001"].
Proof. vm_compute. reflexivity. Qed.

(** * Further properties of the handler *)

(** ** What a rollover cannot do *)

Section Failures.
Variable P : Platform.
Implicit Types (h : Handler) (w : World).

Lemma bind_Raise {A B} (c : M A) (f : A → M B) (w w' : World) (e : Exn) :
  (c ≫= f) w = Raise e w' →
  c w = Raise e w' ∨ ∃ a w1, c w = Ok a w1 ∧ f a w1 = Raise e w'.
Proof.
  unfold mbind, M_bind. destruct (c w) as [a w1|e1 w1|]; [eauto | | discriminate].
  intros [= -> ->]. by left.
Qed.

Lemma rotate_default_Ok h src dst w :
  rotator h = None → ∃ w', rotate h src dst w = Ok tt w' ∧ stdout w' = stdout w.
Proof.
  intros Hr. rewrite rotate_default by done.
  destruct (files w !! src); eauto.
Qed.

(** With the default rotator the archive step raises nothing: what it
    removes and what it renames is there. *)
Lemma archive_not_Raise fuel h dfn w e w' :
  rotator h = None → archive P fuel h dfn w ≠ Raise e w'.
Proof.
  intros Hrot H. unfold archive in H. destruct (0 <? backupCount h).
  - apply bind_Raise in H as [H | (s & w0 & _ & H)];
      [by apply find_sfn_not_Raise in H|].
    apply bind_Raise in H as [H | (u & w1 & _ & H)].
    + destruct (rotate_default_Ok h (baseFilename h) s w0 Hrot) as (w1 & E & _).
      by rewrite E in H.
    + destruct (prune_returns P h w1) as (w2 & E).
      assert ((getFilesToDelete P h ≫= λ l, remove_each l) w1 = Ok tt w2) as E'
        by exact E.
      by rewrite E' in H.
  - apply bind_Raise in H as [H | (b & w0 & Hb & H)]; [by unfold os_path_exists in H|].
    unfold os_path_exists in Hb. inversion Hb; subst; clear Hb.
    apply bind_Raise in H as [H | (u & w1 & _ & H)].
    + unfold os_remove, mret, M_ret in H.
      destruct (files w0 !! dfn) eqn:E; simpl in H; rewrite ?E in H; done.
    + destruct (rotate_default_Ok h (baseFilename h) dfn w1 Hrot) as (w2 & E & _).
      by rewrite E in H.
Qed.

(** With the default rotator the archive step prints nothing. *)
Lemma archive_stdout fuel h dfn w u w' :
  rotator h = None → archive P fuel h dfn w = Ok u w' → stdout w' = stdout w.
Proof.
  intros Hrot H. unfold archive in H. destruct (0 <? backupCount h).
  - apply bind_Ok in H as (s & w0 & Hf & H). apply find_sfn_Ok in Hf as [-> _].
    apply bind_Ok in H as (u1 & w1 & Hr & H).
    destruct (rotate_default_Ok h (baseFilename h) s w Hrot) as (w1' & E & Hs).
    rewrite E in Hr. inversion Hr; subst w1'; clear Hr E.
    apply bind_Ok in H as (l & w2 & Hl & H).
    rewrite getFilesToDelete_Ok in Hl. inversion Hl; subst w2; clear Hl.
    apply remove_each_Ok in H as (_ & Hs' & _). congruence.
  - apply bind_Ok in H as (b & w0 & Hb & H).
    unfold os_path_exists in Hb. inversion Hb; subst; clear Hb.
    apply bind_Ok in H as (u1 & w1 & Hrm & H).
    destruct (rotate_default_Ok h (baseFilename h) dfn w1 Hrot) as (w2 & E & Hs).
    rewrite E in H. inversion H; subst w2; clear H E.
    rewrite Hs. unfold os_remove, mret, M_ret in Hrm.
    destruct (files w0 !! dfn) eqn:E; simpl in Hrm; rewrite ?E in Hrm;
      inversion Hrm; subst; done.
Qed.

Lemma advance_stuck fuel i now r : i ≤ 0 → r ≤ now → advance fuel i now r = None.
Proof.
  intros Hi. revert r. induction fuel as [|fuel IH]; intros r Hr; [done|].
  simpl. destruct (r <=? now) eqn:E; [|lia]. apply IH. lia.
Qed.

(** For the units other than midnight and the days of the week,
    [computeRollover] adds the interval. *)
Lemma computeRollover_plain h t :
  String.eqb (when h) "MIDNIGHT" || startswith "W" (when h) = false →
  computeRollover P h t = t + interval h.
Proof. intros E. unfold computeRollover. by rewrite E. Qed.

Lemma dst_adjust_plain h d t :
  String.eqb (when h) "MIDNIGHT" || startswith "W" (when h) = false →
  dst_adjust P h d t = t.
Proof. intros E. unfold dst_adjust. by rewrite E. Qed.

(** The handler a rollover returns: the one it was given, with another
    stream and another rollover time. *)
Lemma doRollover_handler fuel h now w h' w' :
  doRollover P fuel h now w = Ok h' w' →
  ∃ nr, advance fuel (interval h) now (computeRollover P h now) = Some nr
        ∧ h' = set_rolloverAt (dst_adjust P h (isdst (zone P) now) nr)
                 (set_stream (if delay h then None else Some (baseFilename h)) h).
Proof.
  intros H. apply doRollover_Ok in H as (u & w1 & h1 & nr & _ & Hr & Hn & ->).
  exists nr. split; [done|]. f_equal.
  assert (close_stream h = set_stream None h) as Hc.
  { unfold close_stream. destruct h as [? ? ? ? ? ? ? ? ? ? ? ? [s|] ? ?]; done. }
  destruct (delay h) eqn:Hd.
  - rewrite reopen_delayed in Hr by (rewrite Hc; done). inversion Hr; subst. done.
  - destruct (reopen_Ok (close_stream h) w1) as (w2 & Hr' & _); [by rewrite Hc|].
    rewrite Hr' in Hr. inversion Hr; subst. by rewrite Hc.
Qed.

End Failures.

(** X1: with the default namer and rotator, in a log directory that
    exists, a rollover raises no [FileNotFoundError]: every file it
    removes or renames was found to exist first, in both modes and for
    every file of the list to delete. *)
Theorem X1_rollover_raises_no_FileNotFoundError (P : Platform) (fuel : nat)
    (h : Handler) (now : Z) (w : World) :
  namer h = None → rotator h = None →
  ∀ path w', doRollover P fuel h now w ≠ Raise (FileNotFoundError path) w'.
Proof.
  intros _ Hrot path w' H. unfold doRollover in H.
  destruct (close_stream_fields h) as (_&_&_&_&_&_&_&_&_&_&_&_&_&Hr).
  apply bind_Raise in H as [H | (u & w1 & _ & H)].
  { revert H. apply archive_not_Raise. congruence. }
  apply bind_Raise in H as [H | (h1 & w2 & _ & H)].
  { destruct (reopen_returns (close_stream h) w1) as (h1 & w2 & E). by rewrite E in H. }
  apply bind_Raise in H as [H | (r & w3 & _ & H)]; [|discriminate].
  unfold next_rollover in H. by destruct (advance _ _ _ _).
Qed.

Lemma X1_rollover_raises_no_FileNotFoundError_witness :
  (namer (daily 2 None false (Some base)) = None
   ∧ rotator (daily 2 None false (Some base)) = None)
  ∧ ∀ path w', doRollover utc_py38 1 (daily 2 None false (Some base)) mar14_0000_utc
                 fs_mixed ≠ Raise (FileNotFoundError path) w'.
Proof.
  split; [split; reflexivity|].
  apply (X1_rollover_raises_no_FileNotFoundError utc_py38 1
           (daily 2 None false (Some base)) mar14_0000_utc fs_mixed eq_refl eq_refl).
Defined.

(** X2: with the default namer and rotator and a positive interval, a
    rollover fails to return for every amount of fuel exactly when the
    retention count is above zero and a file named [dfn.001] exists. *)
Theorem X2_rollover_hangs_iff_first_name_taken (P : Platform) (h : Handler) (now : Z)
    (w : World) :
  namer h = None → rotator h = None → 0 < interval h →
  (∀ fuel, doRollover P fuel h now w = Diverge)
  ↔ 0 < backupCount h ∧ is_Some (files w !! (archive_name P h now +:+ ".001")).
Proof.
  intros Hna Hrot Hi. split.
  - intros Hdiv.
    destruct (decide (0 < backupCount h)) as [HN|HN];
      [destruct (files w !! (archive_name P h now +:+ ".001")) as [c|] eqn:E; [eauto|]|].
    + destruct (doRollover_returns P h now w) as [n Hn]; try done.
      * intros _. unfold rotation_filename. by rewrite Hna.
      * lia.
      * destruct (Hn n) as (h' & w' & Hok); [lia|]. by rewrite Hdiv in Hok.
    + destruct (doRollover_returns P h now w) as [n Hn]; try done.
      * intros _. by apply archive_name_ne.
      * destruct (Hn n) as (h' & w' & Hok); [lia|]. by rewrite Hdiv in Hok.
  - intros [HN Hex] fuel. apply doRollover_stuck; [done|].
    unfold rotation_filename. by rewrite Hna.
Qed.

Lemma X2_rollover_hangs_iff_first_name_taken_witness :
  let h := daily 2 None false (Some base) in
  (namer h = None ∧ rotator h = None ∧ 0 < interval h)
  ∧ ((∀ fuel, doRollover utc_py38 fuel h mar14_0000_utc fs_rolled_today = Diverge)
     ↔ 0 < backupCount h
       ∧ is_Some (files fs_rolled_today
                    !! (archive_name utc_py38 h mar14_0000_utc +:+ ".001"))).
Proof.
  split; [repeat split|].
  apply (X2_rollover_hangs_iff_first_name_taken utc_py38 (daily 2 None false (Some base))
           mar14_0000_utc fs_rolled_today eq_refl eq_refl eq_refl).
Defined.

(** X3: with an interval of zero or less, which the constructor
    accepts, and a unit other than midnight and the days of the week, no
    rollover returns: the new time is never after [now] and the loop of
    lines 90-91 does not end. *)
Theorem X3_rollover_never_returns_without_positive_interval (P : Platform) (fuel : nat)
    (h : Handler) (now : Z) (w : World) :
  interval h ≤ 0 →
  String.eqb (when h) "MIDNIGHT" || startswith "W" (when h) = false →
  ∀ h' w', doRollover P fuel h now w ≠ Ok h' w'.
Proof.
  intros Hi Hu h' w' H.
  apply doRollover_Ok in H as (u & w1 & h1 & nr & _ & _ & Hn & _).
  rewrite computeRollover_plain in Hn by done.
  rewrite advance_stuck in Hn; [done | done | lia].
Qed.

Lemma X3_rollover_never_returns_without_positive_interval_witness :
  let h := daily_every_zero_days in
  (interval h ≤ 0 ∧ String.eqb (when h) "MIDNIGHT" || startswith "W" (when h) = false)
  ∧ ∀ h' w', doRollover utc_py38 5 h mar14_0000_utc fs0 ≠ Ok h' w'.
Proof.
  split; [split; by vm_compute|].
  apply (X3_rollover_never_returns_without_positive_interval utc_py38 5
           daily_every_zero_days mar14_0000_utc fs0);
    [by vm_compute | reflexivity].
Defined.

(** X4: for a unit other than midnight and the days of the week and a
    positive interval, a rollover that returns sets the next rollover
    exactly one interval after the time of the call, whatever the
    rollover time was before: a rollover for size puts off the next
    rollover for time. *)
Theorem X4_schedule_restarts_at_the_call (P : Platform) (fuel : nat) (h : Handler)
    (now : Z) (w : World) (h' : Handler) (w' : World) :
  0 < interval h →
  String.eqb (when h) "MIDNIGHT" || startswith "W" (when h) = false →
  doRollover P fuel h now w = Ok h' w' →
  rolloverAt h' = now + interval h.
Proof.
  intros Hi Hu H. apply doRollover_handler in H as (nr & Hn & ->). simpl.
  rewrite dst_adjust_plain by done.
  rewrite computeRollover_plain in Hn by done.
  destruct fuel as [|fuel]; [discriminate|].
  rewrite advance_ahead in Hn by lia. congruence.
Qed.

Lemma X4_schedule_restarts_at_the_call_witness :
  let h := daily 2 None false (Some base) in
  let now := mar13_0000_utc + 3600 in
  (0 < interval h ∧ String.eqb (when h) "MIDNIGHT" || startswith "W" (when h) = false)
  ∧ rolloverAt (handler_of (doRollover utc_py38 1 h now fs0) h) = now + interval h.
Proof.
  split; [split; reflexivity|].
  apply (X4_schedule_restarts_at_the_call utc_py38 1 (daily 2 None false (Some base))
           (mar13_0000_utc + 3600) fs0 _
           (world_of (doRollover utc_py38 1 (daily 2 None false (Some base))
                        (mar13_0000_utc + 3600) fs0) fs0) eq_refl eq_refl).
  vm_compute. reflexivity.
Defined.

(** X5: a rollover that returns hands back the handler it was given
    with two attributes changed and no other: the rollover time, and
    the stream, which is open on the base file unless deferred-open is
    set and then absent, whatever it was before. *)
Theorem X5_rollover_changes_stream_and_time_only (P : Platform) (fuel : nat) (h : Handler)
    (now : Z) (w : World) (h' : Handler) (w' : World) :
  doRollover P fuel h now w = Ok h' w' →
  h' = set_rolloverAt (rolloverAt h')
         (set_stream (if delay h then None else Some (baseFilename h)) h).
Proof.
  intros H. apply doRollover_handler in H as (nr & _ & ->). done.
Qed.

Lemma X5_rollover_changes_stream_and_time_only_witness :
  let h := daily 2 (Some "HDR") true (Some base) in
  let h' := handler_of (doRollover utc_py38 1 h mar14_0000_utc fs0) h in
  h' = set_rolloverAt (rolloverAt h') (set_stream None h).
Proof.
  apply (X5_rollover_changes_stream_and_time_only utc_py38 1
           (daily 2 (Some "HDR") true (Some base)) mar14_0000_utc fs0 _
           (world_of (doRollover utc_py38 1 (daily 2 (Some "HDR") true (Some base))
                        mar14_0000_utc fs0) fs0)).
  vm_compute. reflexivity.
Defined.

(** X6: with the default rotator, what a rollover that returns adds to
    the console is the one line [Hi!] when a header is configured and
    deferred-open is not set, and nothing in every other case. *)
Theorem X6_rollover_console_output (P : Platform) (fuel : nat) (h : Handler) (now : Z)
    (w : World) (h' : Handler) (w' : World) :
  rotator h = None →
  doRollover P fuel h now w = Ok h' w' →
  stdout w' = (stdout w ++ match delay h, header h with
                           | false, Some _ => ["Hi!"]
                           | _, _ => []
                           end)%list.
Proof.
  intros Hrot H.
  apply doRollover_Ok in H as (u & w1 & h1 & nr & Ha & Hr & _ & _).
  destruct (close_stream_fields h) as (_&_&_&_&_&_&_&_&_&_&Eh&Ed&_&Er).
  apply archive_stdout in Ha; [|congruence].
  destruct (delay h) eqn:Hd.
  - rewrite reopen_delayed in Hr by congruence. inversion Hr; subst.
    by rewrite app_nil_r.
  - destruct (reopen_Ok (close_stream h) w1) as (w2 & Hr' & _ & Hs & _); [congruence|].
    rewrite Hr' in Hr. inversion Hr; subst. by rewrite Hs, Ha, Eh.
Qed.

Lemma X6_rollover_console_output_witness :
  let h := daily 2 None false (Some base) in
  rotator h = None
  ∧ stdout (world_of (doRollover utc_py38 1 h mar14_0000_utc fs0) fs0) = [].
Proof.
  split; [reflexivity|].
  apply (X6_rollover_console_output utc_py38 1 (daily 2 None false (Some base))
           mar14_0000_utc fs0
           (handler_of (doRollover utc_py38 1 (daily 2 None false (Some base))
                          mar14_0000_utc fs0) nightly) _ eq_refl).
  vm_compute. reflexivity.
Defined.

(** ** What pruning removes *)

Section Pruning.
Variable P : Platform.
Implicit Types (h : Handler) (w : World).

Lemma string_leb_trans (a b c : string) :
  String.leb a b = true → String.leb b c = true → String.leb a c = true.
Proof.
  unfold String.leb. revert b c.
  induction a as [|x a IH]; intros [|y b] [|z c]; simpl; try done.
  unfold Ascii.compare.
  destruct (N.compare_spec (N_of_ascii x) (N_of_ascii y)) as [E1|L1|G1];
    destruct (N.compare_spec (N_of_ascii y) (N_of_ascii z)) as [E2|L2|G2];
    destruct (N.compare_spec (N_of_ascii x) (N_of_ascii z)) as [E3|L3|G3];
    try done; try lia.
  apply IH.
Qed.

#[local] Instance string_leb_transitive :
  Transitive (λ a b : string, Is_true (String.leb a b)).
Proof.
  intros a b c Hab Hbc. apply Is_true_true. apply Is_true_true in Hab, Hbc.
  by eapply string_leb_trans.
Qed.

#[local] Instance string_leb_total : Total (λ a b : string, Is_true (String.leb a b)).
Proof.
  intros a b. destruct (String.leb_total a b) as [H|H]; [left|right];
    by apply Is_true_true.
Qed.

Lemma sorted_strongly (l : list string) :
  StronglySorted (λ a b : string, Is_true (String.leb a b)) (sorted l).
Proof. apply StronglySorted_merge_sort; apply _. Qed.

(** What [getFilesToDelete] returns is selected and is there. *)
Lemma getFilesToDelete_selected h w l w' p :
  getFilesToDelete P h w = Ok l w' → p ∈ l →
  selects P (baseFilename h) (when h) (namer h) p = true ∧ is_Some (files w !! p).
Proof.
  rewrite getFilesToDelete_Ok. intros [= <- _] Hp.
  destruct (_ <? backupCount h); [by apply elem_of_nil in Hp|].
  assert (p ∈ sorted (selected P h w)) as Hp'.
  { rewrite <- (take_drop
      (Z.to_nat (Z.of_nat (length (sorted (selected P h w))) - backupCount h))
      (sorted (selected P h w))).
    apply elem_of_app. by left. }
  rewrite sorted_perm in Hp'. unfold selected in Hp'.
  apply list_elem_of_filter in Hp' as [Hs Hk].
  split; [by apply Is_true_true | by apply keys_elem].
Qed.

(** The archive step with a retention count above zero, taken apart. *)
Lemma archive_numbered_inv fuel h dfn w u w' :
  0 < backupCount h → rotator h = None →
  archive P fuel h dfn w = Ok u w' →
  let sfn := rotation_filename h (dfn +:+ "." +:+ fmt_03d 1) in
  files w !! sfn = None
  ∧ ∃ w1 l,
      rotate h (baseFilename h) sfn w = Ok tt w1
      ∧ (∀ p, p ≠ baseFilename h → p ≠ sfn → files w1 !! p = files w !! p)
      ∧ files w1 !! sfn = files w !! baseFilename h
      ∧ calls w1 = (calls w ++ match files w !! baseFilename h with
                               | Some _ => [SysRename (baseFilename h) sfn]
                               | None => []
                               end)%list
      ∧ getFilesToDelete P h w1 = Ok l w1
      ∧ remove_each l w1 = Ok u w'.
Proof.
  intros HN Hrot. unfold archive.
  destruct (0 <? backupCount h) eqn:E; [|lia].
  intros H. apply bind_Ok in H as (s & w0 & Hf & H).
  pose proof (find_sfn_first _ _ _ _ _ _ _ Hf) as ->.
  apply find_sfn_Ok in Hf as [-> Hfree].
  apply bind_Ok in H as (u1 & w1 & Hr & H).
  apply bind_Ok in H as (l & w2 & Hl & H).
  assert (w2 = w1) as ->.
  { rewrite getFilesToDelete_Ok in Hl. by inversion Hl. }
  simpl. split; [done|]. exists w1, l.
  destruct u1. split; [done|].
  rewrite rotate_default in Hr by done.
  destruct (files w !! baseFilename h) as [c|] eqn:Eb;
    inversion Hr; subst w1; clear Hr; simpl.
  - repeat split; try done.
    + intros p H1 H2. by rewrite lookup_insert_ne, lookup_delete_ne.
    + apply lookup_insert_eq.
  - repeat split; try done. by rewrite app_nil_r.
Qed.

(** The renaming adds at most one selected entry. *)
Lemma selected_after_rename h w w1 src dst :
  files w !! dst = None → rotator h = None →
  rotate h src dst w = Ok tt w1 →
  (length (selected P h w1) ≤ length (selected P h w) + 1)%nat.
Proof.
  intros Hd Hrot. rewrite rotate_default by done.
  destruct (files w !! src) as [c|] eqn:Es; intros [= <-]; [|lia].
  unfold selected. simpl.
  assert (dst ≠ src) as Hne by congruence.
  rewrite keys_insert_absent by (by rewrite lookup_delete_ne).
  rewrite <- (keys_delete (files w) src) by eauto.
  set (S := λ p, selects P (baseFilename h) (when h) (namer h) p).
  set (K := (map_to_list (delete src (files w))).*1).
  assert (Hcons : ∀ x, (length (filter (λ p, S p) K)
                        ≤ length (filter (λ p, S p) (x :: K))
                        ≤ length (filter (λ p, S p) K) + 1)%nat).
  { intros x. destruct (S x) eqn:Ex.
    - rewrite filter_cons_True by (by rewrite Ex). simpl. lia.
    - rewrite filter_cons_False by (rewrite Ex; by intros []). lia. }
  pose proof (Hcons dst). pose proof (Hcons src). lia.
Qed.

End Pruning.

Section PruningOfARollover.
Variable P : Platform.
Implicit Types (h : Handler) (w : World).

Lemma find_sfn_close fuel h dfn n sfn w :
  find_sfn fuel (close_stream h) dfn n sfn w = find_sfn fuel h dfn n sfn w.
Proof.
  revert sfn. induction fuel as [|fuel IH]; intros sfn; [done|].
  simpl. unfold mbind, M_bind, os_path_exists.
  destruct (files w !! sfn); [|done].
  rewrite IH. f_equal. unfold rotation_filename.
  by destruct (close_stream_fields h) as (_&_&_&_&_&_&_&_&_&_&_&_&->&_).
Qed.

Lemma archive_close fuel h dfn w :
  archive P fuel (close_stream h) dfn w = archive P fuel h dfn w.
Proof.
  unfold archive.
  destruct (close_stream_fields h) as (_&_&_&->&_).
  destruct (0 <? backupCount h).
  - unfold mbind, M_bind at 1. unfold mbind, M_bind at 4.
    rewrite find_sfn_close.
    unfold close_stream. by destruct (stream h).
  - unfold close_stream. by destruct (stream h).
Qed.

Lemma reopen_other_files h w h1 w' p :
  reopen h w = Ok h1 w' → p ≠ baseFilename h → files w' !! p = files w !! p.
Proof.
  intros Hr Hp. destruct (delay h) eqn:Hd.
  - rewrite reopen_delayed in Hr by done. by inversion Hr.
  - destruct (reopen_Ok h w Hd) as (w0 & Hr' & _ & _ & Hf & _).
    rewrite Hr' in Hr. inversion Hr; subst. by apply Hf.
Qed.

Lemma reopen_calls h w h1 w' :
  reopen h w = Ok h1 w' →
  calls w' = (calls w ++ if delay h then [] else [SysOpen (baseFilename h) (mode h)])%list.
Proof.
  intros Hr. destruct (delay h) eqn:Hd.
  - rewrite reopen_delayed in Hr by done. inversion Hr. by rewrite app_nil_r.
  - destruct (reopen_Ok h w Hd) as (w0 & Hr' & Hc & _).
    rewrite Hr' in Hr. by inversion Hr; subst.
Qed.

(** A rollover with a retention count above zero, taken apart: the
    renaming, the list to delete, the deletions, the re-opening. *)
Lemma doRollover_numbered_inv fuel h now w h' w' :
  0 < backupCount h → rotator h = None →
  doRollover P fuel h now w = Ok h' w' →
  let sfn := rotation_filename h (archive_name P h now +:+ ".001") in
  files w !! sfn = None
  ∧ ∃ w1 l w2 h1,
      rotate h (baseFilename h) sfn w = Ok tt w1
      ∧ (∀ p, p ≠ baseFilename h → p ≠ sfn → files w1 !! p = files w !! p)
      ∧ files w1 !! sfn = files w !! baseFilename h
      ∧ calls w1 = (calls w ++ match files w !! baseFilename h with
                               | Some _ => [SysRename (baseFilename h) sfn]
                               | None => []
                               end)%list
      ∧ getFilesToDelete P h w1 = Ok l w1
      ∧ remove_each l w1 = Ok tt w2
      ∧ reopen (close_stream h) w2 = Ok h1 w'.
Proof.
  intros HN Hrot H.
  apply doRollover_Ok in H as (u & w2 & h1 & nr & Ha & Hr & _ & _).
  rewrite archive_close in Ha.
  apply archive_numbered_inv in Ha as (Hfree & w1 & l & H1 & H2 & H3 & H4 & H5 & H6);
    [|done|done].
  split; [done|]. destruct u. exists w1, l, w2, h1. done.
Qed.

End PruningOfARollover.

(** X7: with a retention count above zero and the default rotator, a
    rollover that returns leaves every file alone that is neither the
    base file, nor the new archive [dfn.001], nor selected as a backup
    by [getFilesToDelete]: its presence and its content are as before. *)
Theorem X7_rollover_leaves_other_files_alone (P : Platform) (fuel : nat) (h : Handler)
    (now : Z) (w : World) (h' : Handler) (w' : World) (p : string) :
  0 < backupCount h → rotator h = None →
  p ≠ baseFilename h →
  p ≠ rotation_filename h (archive_name P h now +:+ ".001") →
  selects P (baseFilename h) (when h) (namer h) p = false →
  doRollover P fuel h now w = Ok h' w' →
  files w' !! p = files w !! p.
Proof.
  intros HN Hrot Hb Hs Hsel H.
  apply doRollover_numbered_inv in H
    as (_ & w1 & l & w2 & h1 & _ & H1 & _ & _ & Hl & Hrm & Hr); [|done|done].
  destruct (close_stream_fields h) as (Eb&_).
  rewrite (reopen_other_files _ _ _ _ _ Hr) by (by rewrite Eb).
  apply remove_each_Ok in Hrm as (_ & _ & _ & Hf).
  rewrite Hf; [by apply H1|].
  intros Hin. destruct (getFilesToDelete_selected P _ _ _ _ _ Hl Hin) as [Hp _].
  congruence.
Qed.

Lemma X7_rollover_leaves_other_files_alone_witness :
  let h := daily 2 None false (Some base) in
  let p := "/var/log/other.log" in
  (0 < backupCount h ∧ rotator h = None ∧ p ≠ baseFilename h
   ∧ p ≠ rotation_filename h (archive_name utc_py38 h mar14_0000_utc +:+ ".001")
   ∧ selects utc_py38 (baseFilename h) (when h) (namer h) p = false)
  ∧ files (world_of (doRollover utc_py38 1 h mar14_0000_utc fs_mixed) fs0) !! p
    = files fs_mixed !! p.
Proof.
  split; [repeat split; by vm_compute|].
  apply (X7_rollover_leaves_other_files_alone utc_py38 1 (daily 2 None false (Some base))
           mar14_0000_utc fs_mixed
           (handler_of (doRollover utc_py38 1 (daily 2 None false (Some base))
                          mar14_0000_utc fs_mixed) nightly) _ "/var/log/other.log"
           eq_refl eq_refl ltac:(by vm_compute) ltac:(by vm_compute) eq_refl).
  vm_compute. reflexivity.
Defined.

(** X8: with the default rotator, when fewer selected backups exist than
    the retention count, a rollover that returns deletes nothing: it
    renames the base file to [dfn.001] if there is one, re-opens it
    unless deferred-open is set, and every other file is as before. *)
Theorem X8_no_deletion_below_retention (P : Platform) (fuel : nat) (h : Handler)
    (now : Z) (w : World) (h' : Handler) (w' : World) :
  rotator h = None →
  Z.of_nat (length (selected P h w)) < backupCount h →
  doRollover P fuel h now w = Ok h' w' →
  let sfn := rotation_filename h (archive_name P h now +:+ ".001") in
  calls w' = (calls w
              ++ match files w !! baseFilename h with
                 | Some _ => [SysRename (baseFilename h) sfn]
                 | None => []
                 end
              ++ if delay h then [] else [SysOpen (baseFilename h) (mode h)])%list
  ∧ ∀ p, p ≠ baseFilename h →
         files w' !! p = if decide (p = sfn) then files w !! baseFilename h
                         else files w !! p.
Proof.
  intros Hrot Hlen H sfn.
  assert (0 < backupCount h) as HN by lia.
  apply doRollover_numbered_inv in H
    as (Hfree & w1 & l & w2 & h1 & Hro & H1 & H2 & Hc & Hl & Hrm & Hr); [|done|done].
  fold sfn in Hfree, Hro, H1, H2, Hc.
  pose proof (selected_after_rename P h w w1 _ _ Hfree Hrot Hro) as Hsel.
  assert (l = []) as ->.
  { rewrite getFilesToDelete_Ok in Hl. inversion Hl as [Hl'].
    destruct (_ <? backupCount h) eqn:E; [done|].
    rewrite (Permutation_length (sorted_perm (selected P h w1))).
    replace (Z.to_nat _) with 0%nat by lia. done. }
  simpl in Hrm. apply ret_Ok in Hrm as [_ <-].
  destruct (close_stream_fields h) as (Eb&Em&_&_&_&_&_&_&_&_&_&Ed&_).
  split.
  - rewrite (reopen_calls _ _ _ _ Hr), Hc, Eb, Em, Ed, <- app_assoc. done.
  - intros p Hp. rewrite (reopen_other_files _ _ _ _ _ Hr) by (by rewrite Eb).
    destruct (decide (p = sfn)) as [->|Hne]; [done | by apply H1].
Qed.

Lemma X8_no_deletion_below_retention_witness :
  let h := daily 2 None false (Some base) in
  let w' := world_of (doRollover utc_py38 1 h mar14_0000_utc fs0) fs0 in
  (rotator h = None ∧ Z.of_nat (length (selected utc_py38 h fs0)) < backupCount h)
  ∧ calls w' = [SysRename base (base +:+ ".2021-03-13.001"); SysOpen base ModeA].
Proof.
  split; [split; by vm_compute|].
  apply (proj1 (X8_no_deletion_below_retention utc_py38 1
                  (daily 2 None false (Some base)) mar14_0000_utc fs0
                  (handler_of (doRollover utc_py38 1 (daily 2 None false (Some base))
                                 mar14_0000_utc fs0) nightly) _
                  eq_refl ltac:(by vm_compute) ltac:(vm_compute; reflexivity))).
Defined.

(** X9: with a retention count above zero and the default rotator,
    pruning takes the backups in the order of their names: every file
    that a rollover has deleted comes before, or is, every selected
    backup that it has kept. *)
Theorem X9_pruning_deletes_lowest_names_first (P : Platform) (fuel : nat) (h : Handler)
    (now : Z) (w : World) (h' : Handler) (w' : World) (p q : string) :
  0 < backupCount h → rotator h = None →
  p ≠ baseFilename h → is_Some (files w !! p) → files w' !! p = None →
  q ≠ baseFilename h → selects P (baseFilename h) (when h) (namer h) q = true →
  is_Some (files w' !! q) →
  doRollover P fuel h now w = Ok h' w' →
  String.leb p q = true.
Proof.
  intros HN Hrot Hpb Hpw Hpw' Hqb Hqs Hqw' H.
  apply doRollover_numbered_inv in H
    as (Hfree & w1 & l & w2 & h1 & Hro & H1 & H2 & _ & Hl & Hrm & Hr); [|done|done].
  destruct (close_stream_fields h) as (Eb&_).
  rewrite (reopen_other_files _ _ _ _ p Hr) in Hpw' by (by rewrite Eb).
  rewrite (reopen_other_files _ _ _ _ q Hr) in Hqw' by (by rewrite Eb).
  pose proof (remove_each_stays_absent _ _ _ _ q Hrm) as Hq1.
  apply remove_each_Ok in Hrm as (Hperm & _ & _ & Hf).
  assert (p ∈ l) as Hpl.
  { destruct (decide (p ∈ l)) as [|Hn]; [done|exfalso].
    rewrite Hf in Hpw' by done.
    assert (p ≠ rotation_filename h (archive_name P h now +:+ ".001")) as Hne.
    { intros ->. destruct Hpw as [c Hc]. congruence. }
    rewrite H1 in Hpw' by done. destruct Hpw as [c Hc]. congruence. }
  assert (q ∉ l) as Hql.
  { intros Hin.
    assert (NoDup (l ++ (map_to_list (files w2)).*1)) as Hnd.
    { rewrite Hperm. apply NoDup_fst_map_to_list. }
    apply NoDup_app in Hnd as (_ & Hdis & _). apply (Hdis q Hin).
    destruct Hqw' as [c Hc]. apply list_elem_of_fmap. exists (q, c).
    split; [done|]. by apply elem_of_map_to_list. }
  assert (is_Some (files w1 !! q)) as Hq1'.
  { destruct (files w1 !! q) eqn:E; [eauto|].
    rewrite (Hq1 eq_refl) in Hqw'. by destruct Hqw'. }
  rewrite getFilesToDelete_Ok in Hl. inversion Hl as [Hl']. clear Hl.
  destruct (_ <? backupCount h); [subst l; by apply elem_of_nil in Hpl|].
  assert (q ∈ sorted (selected P h w1)) as Hqin.
  { rewrite sorted_perm. unfold selected. apply list_elem_of_filter.
    split; [by apply Is_true_true|].
    destruct Hq1' as [c Hc]. apply list_elem_of_fmap. exists (q, c).
    split; [done|]. by apply elem_of_map_to_list. }
  rewrite <- (take_drop
    (Z.to_nat (Z.of_nat (length (sorted (selected P h w1))) - backupCount h))
    (sorted (selected P h w1))) in Hqin.
  rewrite Hl' in Hqin. apply elem_of_app in Hqin as [Hqin|Hqin]; [done|].
  pose proof (sorted_strongly (selected P h w1)) as Hss.
  rewrite <- (take_drop
    (Z.to_nat (Z.of_nat (length (sorted (selected P h w1))) - backupCount h))
    (sorted (selected P h w1))) in Hss.
  rewrite Hl' in Hss.
  apply Is_true_true.
  exact (StronglySorted_app_1_elem_of _ _ _ _ _ Hss Hpl Hqin).
Qed.

Lemma X9_pruning_deletes_lowest_names_first_witness :
  let h := daily 2 None false (Some base) in
  let w' := world_of (doRollover utc_py38 1 h mar14_0000_utc fs_mixed) fs0 in
  let p := base +:+ ".2021-03-10.001" in
  let q := base +:+ ".2021-03-11.001" in
  (0 < backupCount h ∧ rotator h = None
   ∧ p ≠ baseFilename h ∧ is_Some (files fs_mixed !! p) ∧ files w' !! p = None
   ∧ q ≠ baseFilename h ∧ selects utc_py38 (baseFilename h) (when h) (namer h) q = true
   ∧ is_Some (files w' !! q))
  ∧ String.leb p q = true.
Proof.
  split; [repeat split; try (by vm_compute); vm_compute; eauto|].
  apply (X9_pruning_deletes_lowest_names_first utc_py38 1 (daily 2 None false (Some base))
           mar14_0000_utc fs_mixed
           (handler_of (doRollover utc_py38 1 (daily 2 None false (Some base))
                          mar14_0000_utc fs_mixed) nightly)
           (world_of (doRollover utc_py38 1 (daily 2 None false (Some base))
                        mar14_0000_utc fs_mixed) fs0)
           (base +:+ ".2021-03-10.001") (base +:+ ".2021-03-11.001")
           eq_refl eq_refl ltac:(by vm_compute) ltac:(vm_compute; eauto)
           ltac:(vm_compute; reflexivity) ltac:(by vm_compute) eq_refl
           ltac:(vm_compute; eauto) ltac:(vm_compute; reflexivity)).
Defined.

(** ** Construction *)

(** X10: construction with deferred-open set performs no file
    operation and writes no header: whether it returns a handler or
    raises for an unknown unit, the directory, the console and the log
    of calls are as before, and a handler returned has no stream. *)
Theorem X10_deferred_construction_touches_nothing (P : Platform) (filename : string)
    (m : open_mode) (maxBytes backupCount : Z) (when : string) (interval : Z)
    (utc : bool) (header : option string) (now mtime : Z) (w : World) :
  match __init__ P filename m maxBytes backupCount true when interval utc header
          now mtime w with
  | Ok h w' => w' = w ∧ stream h = None
  | Raise e w' => w' = w
  | Diverge => False
  end.
Proof.
  unfold __init__, FileHandler_init, mbind, M_bind, mret, M_ret, raise, os_path_exists.
  destruct (parse_when (upper when)) as [e|[[unit sfx] dow]]; simpl; [done|].
  destruct (files w !! filename); done.
Qed.

(** X11: construction without deferred-open and with an unknown unit
    raises [ValueError] only after the file has been opened: the file
    then exists, emptied when mode ['w'] was given with a size threshold
    of zero or less and with its content otherwise, no header is in it,
    and every other file is as before. *)
Theorem X11_failed_construction_has_opened_the_file (P : Platform) (filename : string)
    (m : open_mode) (maxBytes backupCount : Z) (when : string) (interval : Z)
    (utc : bool) (header : option string) (now mtime : Z) (w : World) (e : Exn) :
  parse_when (upper when) = inl e →
  ∃ w', __init__ P filename m maxBytes backupCount false when interval utc header
          now mtime w = Raise e w'
        ∧ files w' !! filename
          = Some (match (if 0 <? maxBytes then ModeA else m), files w !! filename with
                  | ModeA, Some c => c
                  | _, _ => EmptyString
                  end)
        ∧ ∀ p, p ≠ filename → files w' !! p = files w !! p.
Proof.
  intros E.
  unfold __init__, FileHandler_init, open_file, mbind, M_bind, mret, M_ret, raise.
  simpl. rewrite E. eexists. split; [reflexivity|]. simpl.
  destruct (if 0 <? maxBytes then ModeA else m), (files w !! filename) eqn:Ef;
    simpl; rewrite ?Ef, ?lookup_insert_eq; simpl; rewrite ?lookup_insert_eq, ?Ef;
    (split; [done|]); intros p Hp; by rewrite ?lookup_insert_ne.
Qed.

Lemma X11_failed_construction_has_opened_the_file_witness :
  parse_when (upper "fortnight") = inl (ValueError
    "Invalid rollover interval specified: FORTNIGHT")
  ∧ ∃ w', __init__ utc_py38 base ModeW 0 2 false "fortnight" 1 true (Some "HDR")
            mar13_0000_utc mar13_0000_utc fs0
          = Raise (ValueError "Invalid rollover interval specified: FORTNIGHT") w'
          ∧ files w' !! base = Some EmptyString
          ∧ ∀ p, p ≠ base → files w' !! p = files fs0 !! p.
Proof.
  split; [reflexivity|].
  apply (X11_failed_construction_has_opened_the_file utc_py38 base ModeW 0 2 "fortnight"
           1 true (Some "HDR") mar13_0000_utc mar13_0000_utc fs0 _ eq_refl).
Defined.

(** X12: a handler that construction returns always has append mode,
    whatever mode was given, the default namer and rotator, the unit in
    upper case and a stream exactly when deferred-open is not set; its
    first rollover time is computed from the file's modification time
    whenever the file exists at that point, which is always so without
    deferred-open, and from [now] otherwise.  Construction prints
    nothing and touches no other file. *)
Theorem X12_constructed_handler (P : Platform) (filename : string)
    (m : open_mode) (maxBytes backupCount : Z) (delay : bool) (when : string)
    (interval : Z) (utc : bool) (header : option string) (now mtime : Z) (w : World)
    (h : Handler) (w' : World) :
  __init__ P filename m maxBytes backupCount delay when interval utc header
    now mtime w = Ok h w' →
  mode h = ModeA ∧ namer h = None ∧ rotator h = None
  ∧ Handler.when h = upper when
  ∧ stream h = (if delay then None else Some filename)
  ∧ rolloverAt h
    = computeRollover P h
        (if delay && negb (bool_decide (is_Some (files w !! filename)))
         then now else mtime)
  ∧ stdout w' = stdout w
  ∧ ∀ p, p ≠ filename → files w' !! p = files w !! p.
Proof.
  unfold __init__, FileHandler_init, open_file, mbind, M_bind, mret, M_ret, raise,
    os_path_exists, stream_write.
  destruct (parse_when (upper when)) as [e|[[unit sfx] dow]] eqn:E;
    destruct delay; simpl; try discriminate.
  - destruct (files w !! filename) eqn:Ef; intros [= <- <-]; simpl;
      repeat split; done.
  - destruct (if 0 <? maxBytes then ModeA else m), (files w !! filename) eqn:Ef;
      simpl; rewrite ?Ef, ?lookup_insert_eq; simpl;
      destruct header; simpl; intros [= <- <-]; simpl;
      repeat split; try done; intros p Hp; by rewrite ?lookup_insert_ne.
Qed.

Lemma X12_constructed_handler_witness :
  let r := __init__ havana base ModeW 50 2 false "midnight" 1 false None
             mar13_2330_havana (mar13_2330_havana - 7200) fs_empty in
  mode (handler_of r nightly) = ModeA
  ∧ stream (handler_of r nightly) = Some base
  ∧ rolloverAt (handler_of r nightly) = mar14_0000_havana.
Proof.
  pose proof (X12_constructed_handler havana base ModeW 50 2 false "midnight" 1 false
                None mar13_2330_havana (mar13_2330_havana - 7200) fs_empty
                (handler_of (__init__ havana base ModeW 50 2 false "midnight" 1 false None
                               mar13_2330_havana (mar13_2330_havana - 7200) fs_empty)
                            nightly)
                _ ltac:(vm_compute; reflexivity)) as (Hm & _ & _ & _ & Hs & _).
  split; [exact Hm|]. split; [exact Hs|]. vm_compute. reflexivity.
Defined.

(** ** The rotation test and a write *)

Lemma shouldRollover_effects (h : Handler) (record : string) (now : Z) (w : World) :
  ∃ b w',
    shouldRollover h record now w
    = Ok (match stream h with
          | Some _ => h
          | None => set_stream (Some (baseFilename h)) h
          end, b) w'
    ∧ stdout w' = stdout w
    ∧ (∀ p, p ≠ baseFilename h → files w' !! p = files w !! p)
    ∧ (is_Some (stream h) → w' = w)
    ∧ (stream h = None →
       files w' !! baseFilename h
       = Some (match mode h, files w !! baseFilename h with
               | ModeA, Some c => c
               | _, _ => EmptyString
               end)
       ∧ calls w' = (calls w ++ [SysOpen (baseFilename h) (mode h)])%list).
Proof.
  unfold shouldRollover, RotatingFileHandler_shouldRollover,
    TimedRotatingFileHandler_shouldRollover, _open, open_file, stream_tell_end,
    mbind, M_bind, mret, M_ret.
  destruct (stream h) as [s|] eqn:Hs; simpl.
  - rewrite Hs. simpl.
    destruct (0 <? maxBytes h); simpl; [destruct (_ >=? maxBytes h); simpl|];
      do 2 eexists; (split; [reflexivity|]); repeat split; done.
  - destruct (0 <? maxBytes h); simpl; [destruct (_ >=? maxBytes h); simpl|];
      (do 2 eexists; split; [reflexivity|]; simpl; split; [done|];
       split; [|split; [intros [x Hx]; discriminate|]];
       [ intros p Hp; destruct (mode h), (files w !! baseFilename h);
         by rewrite ?lookup_insert_ne
       | intros _; split; [|done];
         destruct (mode h), (files w !! baseFilename h) eqn:E;
         by rewrite ?E, ?lookup_insert_eq ]).
Qed.

(** X13: [shouldRollover] always returns, prints nothing and touches no
    file but the base file.  On a handler with a stream it changes
    nothing at all; on a handler without one (deferred-open) it opens
    the base file, creating it when absent, and hands back the handler
    with that stream: the test is not free of effects. *)
Theorem X13_shouldRollover_opens_a_missing_stream (h : Handler) (record : string)
    (now : Z) (w : World) :
  ∃ h' b w',
    shouldRollover h record now w = Ok (h', b) w'
    ∧ stream h' = Some (default (baseFilename h) (stream h))
    ∧ stdout w' = stdout w
    ∧ (∀ p, p ≠ baseFilename h → files w' !! p = files w !! p)
    ∧ (is_Some (stream h) → h' = h ∧ w' = w)
    ∧ (stream h = None →
       is_Some (files w' !! baseFilename h)
       ∧ calls w' = (calls w ++ [SysOpen (baseFilename h) (mode h)])%list).
Proof.
  destruct (shouldRollover_effects h record now w) as (b & w' & E & Hs & Hf & Hw & Hn).
  eexists _, b, w'. split; [exact E|].
  destruct (stream h) as [s|] eqn:Es; simpl.
  - split; [done|]. split; [done|]. split; [done|]. split; [|done].
    intros _. split; [done|]. apply Hw. eauto.
  - split; [done|]. split; [done|]. split; [done|].
    split; [intros [x Hx]; discriminate|].
    intros _. destruct (Hn eq_refl) as [-> ->]. eauto.
Qed.

Lemma FileHandler_emit_open (h : Handler) (s record : string) (w : World) :
  stream h = Some s →
  ∃ w', FileHandler_emit h record w = Ok h w'
        ∧ files w' !! s = Some (default EmptyString (files w !! s) +:+ record +:+ LF)
        ∧ (∀ p, p ≠ s → files w' !! p = files w !! p)
        ∧ stdout w' = stdout w ∧ calls w' = calls w.
Proof.
  intros Hs. unfold FileHandler_emit, stream_write, mbind, M_bind, mret, M_ret.
  rewrite Hs. simpl. rewrite Hs. simpl. eexists. split; [reflexivity|]. simpl.
  repeat split; [apply lookup_insert_eq|].
  intros p Hp. by rewrite lookup_insert_ne.
Qed.

(** X14: when the rotation test answers true for a handler with a
    header, without deferred-open and with the default namer and
    rotator, an [emit] that returns leaves the base file holding the
    header line followed by the record line and nothing else: the
    record goes to the new segment, after its header. *)
Theorem X14_emit_after_rollover_writes_header_then_record (P : Platform) (fuel : nat)
    (h : Handler) (record : string) (now : Z) (w : World) (h1 : Handler) (w1 : World)
    (h' : Handler) (w' : World) (hd : string) :
  namer h = None → rotator h = None → header h = Some hd → delay h = false →
  shouldRollover h record now w = Ok (h1, true) w1 →
  emit P fuel h record now w = Ok h' w' →
  files w' !! baseFilename h = Some ((hd +:+ LF) +:+ record +:+ LF).
Proof.
  intros Hna Hrot Hh Hd Hsr H. unfold emit in H.
  unfold mbind, M_bind at 1 in H. rewrite Hsr in H.
  apply bind_Ok in H as (h2 & w2 & Hro & H).
  destruct (shouldRollover_effects h record now w) as (b & w0 & E & _).
  rewrite E in Hsr. inversion Hsr; subst; clear Hsr E.
  set (h1 := match stream h with
             | Some _ => h
             | None => set_stream (Some (baseFilename h)) h
             end) in *.
  assert (baseFilename h1 = baseFilename h ∧ namer h1 = None ∧ rotator h1 = None
          ∧ header h1 = Some hd ∧ delay h1 = false) as (Eb & En & Er & Eh & Ed).
  { unfold h1. destruct (stream h); simpl; done. }
  pose proof (doRollover_segment P fuel h1 now w1 h2 w2 En Er Hro) as Hseg.
  rewrite Ed, Eh, Eb in Hseg. destruct Hseg as (Hs2 & Hf2 & _).
  destruct (FileHandler_emit_open h2 _ record w2 Hs2) as (w3 & Hem & Hf3 & _).
  rewrite Hem in H. inversion H; subst. by rewrite Hf3, Hf2.
Qed.

Lemma X14_emit_after_rollover_writes_header_then_record_witness :
  let h := daily 2 (Some "HDR") false (Some base) in
  (namer h = None ∧ rotator h = None ∧ header h = Some "HDR" ∧ delay h = false)
  ∧ files (world_of (emit utc_py38 1 h "record" mar14_0000_utc fs0) fs0) !! base
    = Some (("HDR" +:+ LF) +:+ "record" +:+ LF).
Proof.
  split; [repeat split|].
  apply (X14_emit_after_rollover_writes_header_then_record utc_py38 1
           (daily 2 (Some "HDR") false (Some base)) "record" mar14_0000_utc fs0
           (daily 2 (Some "HDR") false (Some base)) fs0
           (handler_of (emit utc_py38 1 (daily 2 (Some "HDR") false (Some base))
                          "record" mar14_0000_utc fs0) nightly) _ "HDR"
           eq_refl eq_refl eq_refl eq_refl);
    vm_compute; reflexivity.
Defined.

(** X15: when the rotation test answers false for a handler with a
    stream, [emit] returns the handler unchanged and appends exactly the
    record and a line terminator to the file behind the stream; it
    makes no other change to the directory and prints nothing. *)
Theorem X15_emit_without_rollover_appends_the_record (P : Platform) (fuel : nat)
    (h : Handler) (s record : string) (now : Z) (w : World) (h1 : Handler) (w1 : World) :
  stream h = Some s →
  shouldRollover h record now w = Ok (h1, false) w1 →
  ∃ w', emit P fuel h record now w = Ok h w'
        ∧ files w' !! s = Some (default EmptyString (files w !! s) +:+ record +:+ LF)
        ∧ (∀ p, p ≠ s → files w' !! p = files w !! p)
        ∧ stdout w' = stdout w ∧ calls w' = calls w.
Proof.
  intros Hs Hsr.
  destruct (shouldRollover_effects h record now w) as (b & w0 & E & _ & _ & Hw & _).
  rewrite E in Hsr. rewrite Hs in Hsr. inversion Hsr; subst; clear Hsr.
  rewrite (Hw ltac:(eauto)) in *. rewrite Hs in E.
  unfold emit. unfold mbind, M_bind at 1. rewrite E.
  unfold mbind, M_bind at 1. unfold mret, M_ret at 1.
  by apply FileHandler_emit_open.
Qed.

Lemma X15_emit_without_rollover_appends_the_record_witness :
  let h := daily 2 (Some "HDR") false (Some base) in
  stream h = Some base
  ∧ ∃ w', emit utc_py38 1 h "record" mar13_0000_utc fs0 = Ok h w'
          ∧ files w' !! base
            = Some (default EmptyString (files fs0 !! base) +:+ "record" +:+ LF)
          ∧ (∀ p, p ≠ base → files w' !! p = files fs0 !! p)
          ∧ stdout w' = stdout fs0 ∧ calls w' = calls fs0.
Proof.
  split; [reflexivity|].
  apply (X15_emit_without_rollover_appends_the_record utc_py38 1
           (daily 2 (Some "HDR") false (Some base)) base "record" mar13_0000_utc fs0
           (daily 2 (Some "HDR") false (Some base)) fs0 eq_refl).
  vm_compute. reflexivity.
Defined.

(** X16: in UTC, with the default namer, a unit other than midnight and
    the days of the week and a positive interval, the archive name of
    the next rollover, whenever that one is called, carries the time of
    this rollover's call: a segment is archived under the time at which
    it was started. *)
Theorem X16_next_archive_is_named_after_this_call (P : Platform) (fuel : nat)
    (h : Handler) (now : Z) (w : World) (h' : Handler) (w' : World) (later : Z) :
  0 < interval h →
  String.eqb (when h) "MIDNIGHT" || startswith "W" (when h) = false →
  utc h = true → namer h = None →
  doRollover P fuel h now w = Ok h' w' →
  archive_name P h' later
  = baseFilename h +:+ "." +:+ strftime (suffix h) (gmtime now).
Proof.
  intros Hi Hu Hutc Hna H. apply doRollover_handler in H as (nr & Hn & ->).
  rewrite dst_adjust_plain by done.
  rewrite computeRollover_plain in Hn by done.
  destruct fuel as [|fuel]; [discriminate|].
  rewrite advance_ahead in Hn by lia. inversion Hn; subst nr.
  unfold archive_name, rotation_filename. simpl. rewrite Hutc, Hna.
  by replace (now + interval h - interval h) with now by lia.
Qed.

Lemma X16_next_archive_is_named_after_this_call_witness :
  let h := daily 2 None false (Some base) in
  let now := mar14_0000_utc + 3600 in
  (0 < interval h ∧ String.eqb (when h) "MIDNIGHT" || startswith "W" (when h) = false
   ∧ utc h = true ∧ namer h = None)
  ∧ archive_name utc_py38 (handler_of (doRollover utc_py38 1 h now fs0) h)
      mar15_0000_utc
    = base +:+ ".2021-03-14".
Proof.
  split; [repeat split|].
  apply (X16_next_archive_is_named_after_this_call utc_py38 1
           (daily 2 None false (Some base)) (mar14_0000_utc + 3600) fs0 _
           (world_of (doRollover utc_py38 1 (daily 2 None false (Some base))
                        (mar14_0000_utc + 3600) fs0) fs0)
           mar15_0000_utc eq_refl eq_refl eq_refl eq_refl).
  vm_compute. reflexivity.
Defined.

(** X17: right after a rollover without deferred-open (default namer
    and rotator) the size test starts from the header: the rotation
    test answers true exactly when the size threshold is positive and
    the header line plus the record line reach it, or the time given is
    not before the new rollover time.  A header that alone reaches the
    threshold makes the test true for every record. *)
Theorem X17_size_test_after_rollover_counts_the_header (P : Platform) (fuel : nat)
    (h : Handler) (now : Z) (w : World) (h' : Handler) (w' : World)
    (record : string) (later : Z) :
  namer h = None → rotator h = None → delay h = false →
  doRollover P fuel h now w = Ok h' w' →
  shouldRollover h' record later w'
  = Ok (h', (0 <? maxBytes h)
            && (Z.of_nat (String.length
                            match header h with
                            | Some hd => hd +:+ LF
                            | None => EmptyString
                            end)
                + Z.of_nat (String.length (record +:+ LF)) >=? maxBytes h)
            || (later >=? rolloverAt h')) w'.
Proof.
  intros Hna Hrot Hd H.
  pose proof (doRollover_segment P fuel h now w h' w' Hna Hrot H) as Hseg.
  rewrite Hd in Hseg. destruct Hseg as (Hs & Hf & _).
  apply doRollover_handler in H as (nr & _ & Hh).
  assert (maxBytes h' = maxBytes h) as Hm by (by subst h').
  unfold shouldRollover, RotatingFileHandler_shouldRollover,
    TimedRotatingFileHandler_shouldRollover, stream_tell_end,
    mbind, M_bind, mret, M_ret.
  rewrite Hs. simpl. rewrite Hs, Hm. simpl.
  destruct (0 <? maxBytes h); simpl; [|by destruct (later >=? rolloverAt h')].
  rewrite Hf. simpl.
  destruct (_ >=? maxBytes h); simpl; [done|].
  by destruct (later >=? rolloverAt h').
Qed.

Lemma X17_size_test_after_rollover_counts_the_header_witness :
  let h := mk 4 2 "D" 86400 true mar14_0000_utc (Some "HDR") false (Some base) in
  let r := doRollover utc_py38 1 h mar14_0000_utc fs0 in
  (namer h = None ∧ rotator h = None ∧ delay h = false)
  ∧ shouldRollover (handler_of r h) EmptyString mar14_0000_utc (world_of r fs0)
    = Ok (handler_of r h, true) (world_of r fs0).
Proof.
  split; [repeat split|].
  apply (X17_size_test_after_rollover_counts_the_header utc_py38 1
           (mk 4 2 "D" 86400 true mar14_0000_utc (Some "HDR") false (Some base))
           mar14_0000_utc fs0 _ _ EmptyString mar14_0000_utc eq_refl eq_refl eq_refl).
  vm_compute. reflexivity.
Defined.




(** * Archived segments, and the header under deferred-open *)

(** ** The names of archived segments *)

Section ArchivedNames.
Implicit Types (s t r : string).













End ArchivedNames.

(** ** C2: the archived segments that are kept *)

Section ArchivesKept.
Variable P : Platform.
Implicit Types (h : Handler) (w : World).











End ArchivesKept.



(** After those two rollovers the two newest archived segments are
    left, and both earlier ones are gone. *)
Example archives_after_two_rollovers :
  let h := daily 2 None false (Some base) in
  let r := doRollovers utc_py38 1 h [mar14_0000_utc; mar15_0000_utc] fs_two_backups in
  sorted (archives (handler_of r h) (world_of r fs0))
  = [base +:+ ".2021-03-13.001"; base +:+ ".2021-03-14.001"].
Proof. by vm_compute. Qed.

(** ** C6: the header of a segment *)

(** A write through a handler without a stream, whose file is absent,
    creates the file with the record as its only line. *)
Lemma FileHandler_emit_closed (h : Handler) (record : string) (w : World) :
  stream h = None → files w !! baseFilename h = None →
  ∃ w', FileHandler_emit h record w = Ok (set_stream (Some (baseFilename h)) h) w'
        ∧ files w' !! baseFilename h = Some (record +:+ LF).
Proof.
  intros Hs Hf.
  unfold FileHandler_emit, _open, open_file, stream_write, mbind, M_bind, mret, M_ret.
  rewrite Hs. simpl. eexists. split; [reflexivity|]. simpl.
  rewrite lookup_insert_eq.
  destruct (mode h); rewrite ?Hf; by rewrite lookup_insert_eq.
Qed.

(** On such a handler the rotation test answers false for a record
    below the size threshold, before the rollover time. *)
Lemma shouldRollover_closed_not_due (h : Handler) (record : string) (now : Z)
    (w : World) :
  stream h = None → files w !! baseFilename h = None →
  maxBytes h ≤ 0 ∨ Z.of_nat (String.length (record +:+ LF)) < maxBytes h →
  now < rolloverAt h →
  ∃ w', shouldRollover h record now w
        = Ok (set_stream (Some (baseFilename h)) h, false) w'.
Proof.
  intros Hs Hf Hsz Ht.
  unfold shouldRollover, RotatingFileHandler_shouldRollover,
    TimedRotatingFileHandler_shouldRollover, _open, open_file, stream_tell_end,
    mbind, M_bind, mret, M_ret.
  rewrite Hs. simpl.
  assert ((now >=? rolloverAt h) = false) as Hge by lia.
  destruct (0 <? maxBytes h) eqn:E; simpl; [|rewrite Hge; eauto].
  destruct (mode h); rewrite ?Hf; simpl; rewrite lookup_insert_eq; simpl.
  all: destruct (_ >=? maxBytes h) eqn:E'; simpl.
  all: try (rewrite Hge; eauto).
  all: exfalso; apply Z.ltb_lt in E; rewrite Z.geb_leb in E'; apply Z.leb_le in E'.
  all: destruct Hsz as [Hsz|Hsz]; [lia|].
  all: lia.
Qed.

(** After a rollover under deferred-open, the next [emit] that returns
    leaves the record line as the whole content of the segment. *)
Lemma emit_on_closed_segment (P : Platform) (fuel : nat) (h : Handler)
    (record : string) (now : Z) (w : World) (h' : Handler) (w' : World) :
  namer h = None → rotator h = None → delay h = true →
  stream h = None → files w !! baseFilename h = None →
  emit P fuel h record now w = Ok h' w' →
  files w' !! baseFilename h = Some (record +:+ LF).
Proof.
  intros Hna Hrot Hd Hs Hf H. unfold emit in H.
  destruct (shouldRollover_effects h record now w) as (b & w0 & E & _ & _ & _ & Hn).
  destruct (Hn Hs) as [Hf0 _]. rewrite Hs in E. rewrite Hf in Hf0.
  unfold mbind, M_bind at 1 in H. rewrite E in H.
  apply bind_Ok in H as (h2 & w2 & Hro & H).
  destruct b.
  - pose proof (doRollover_segment P fuel (set_stream (Some (baseFilename h)) h)
                  now w0 h2 w2 Hna Hrot Hro) as Hseg.
    simpl in Hseg. rewrite Hd in Hseg. destruct Hseg as [Hs2 Hf2].
    assert (baseFilename h2 = baseFilename h) as Eb.
    { by destruct (doRollover_config _ _ _ _ _ _ _ Hro) as (-> & _). }
    destruct (FileHandler_emit_closed h2 record w2 Hs2) as (w3 & Hem & Hf3);
      [by rewrite Eb|].
    rewrite Hem in H. inversion H; subst. by rewrite <- Eb.
  - apply ret_Ok in Hro as [<- <-].
    destruct (FileHandler_emit_open (set_stream (Some (baseFilename h)) h)
                (baseFilename h) record w0 eq_refl) as (w3 & Hem & Hf3 & _).
    rewrite Hem in H. inversion H; subst. rewrite Hf3, Hf0.
    by destruct (mode h).
Qed.

Lemma emit_on_closed_segment_returns (P : Platform) (fuel : nat) (h : Handler)
    (record : string) (now : Z) (w : World) :
  stream h = None → files w !! baseFilename h = None →
  maxBytes h ≤ 0 ∨ Z.of_nat (String.length (record +:+ LF)) < maxBytes h →
  now < rolloverAt h →
  ∃ h' w', emit P fuel h record now w = Ok h' w'.
Proof.
  intros Hs Hf Hsz Ht.
  destruct (shouldRollover_closed_not_due h record now w Hs Hf Hsz Ht) as (w0 & E).
  unfold emit. unfold mbind, M_bind at 1. rewrite E.
  unfold mbind, M_bind at 1. unfold mret, M_ret.
  destruct (FileHandler_emit_open (set_stream (Some (baseFilename h)) h)
              (baseFilename h) record w0 eq_refl) as (w3 & Hem & _).
  eauto.
Qed.

(** Construction under deferred-open opens no file and writes nothing. *)
Lemma init_deferred (P : Platform) (filename : string) (m : open_mode)
    (maxBytes backupCount : Z) (when : string) (interval : Z) (utc : bool)
    (header : option string) (now mtime : Z) (w : World) :
  match parse_when (upper when) with
  | inr _ =>
      ∃ h, __init__ P filename m maxBytes backupCount true when interval utc header
             now mtime w = Ok h w
           ∧ stream h = None
  | inl e =>
      __init__ P filename m maxBytes backupCount true when interval utc header
        now mtime w = Raise e w
  end.
Proof.
  unfold __init__, FileHandler_init, os_path_exists, raise, mbind, M_bind, mret, M_ret.
  destruct (parse_when (upper when)) as [e|[[unit sfx] dow]]; [done|].
  eexists. split; [reflexivity|done].
Qed.

(** C6 (as the code has it): with a header configured and deferred-open
    not in effect, construction appends exactly the header text and one
    line terminator to the file it opens, and a rollover that returns
    leaves a new segment holding exactly the header text and one line
    terminator.  With deferred-open in effect, construction opens no
    file and writes nothing, and a rollover that returns leaves neither
    a stream nor a segment; the segment is created by the next [emit]
    and holds the record line alone, and that [emit] returns when no
    further rollover is due.  A rollover returns whenever the interval
    is positive and, with numbered backups, the first numbered name is
    free. *)
Theorem C6_header_unless_deferred (P : Platform) (filename : string) (m : open_mode)
    (maxBytes backupCount : Z) (when : string) (interval : Z) (utc : bool)
    (now0 mtime : Z) (w0 : World) (h : Handler) (now : Z) (w : World) (hd : string) :
  namer h = None → rotator h = None → header h = Some hd →
  match parse_when (upper when) with
  | inr _ =>
      (∃ h0 w0', __init__ P filename m maxBytes backupCount false when interval utc
                   (Some hd) now0 mtime w0 = Ok h0 w0'
                 ∧ files w0' !! filename
                   = Some (match (if 0 <? maxBytes then ModeA else m),
                                 files w0 !! filename with
                           | ModeA, Some c => c
                           | _, _ => EmptyString
                           end +:+ hd +:+ LF))
      ∧ (∃ h0, __init__ P filename m maxBytes backupCount true when interval utc
                 (Some hd) now0 mtime w0 = Ok h0 w0
               ∧ stream h0 = None)
  | inl e =>
      __init__ P filename m maxBytes backupCount true when interval utc
        (Some hd) now0 mtime w0 = Raise e w0
  end
  ∧ (∀ fuel h' w',
       doRollover P fuel h now w = Ok h' w' →
       if delay h then
         stream h' = None ∧ files w' !! baseFilename h = None
         ∧ (∀ fuel' record later h'' w'',
              emit P fuel' h' record later w' = Ok h'' w'' →
              files w'' !! baseFilename h = Some (record +:+ LF))
         ∧ (∀ fuel' record later,
              Handler.maxBytes h ≤ 0
              ∨ Z.of_nat (String.length (record +:+ LF)) < Handler.maxBytes h →
              later < rolloverAt h' →
              ∃ h'' w'', emit P fuel' h' record later w' = Ok h'' w'')
       else stream h' = Some (baseFilename h)
            ∧ files w' !! baseFilename h = Some (hd +:+ LF))
  ∧ (0 < Handler.interval h →
     (0 < Handler.backupCount h →
      files w !! (archive_name P h now +:+ ".001") = None) →
     ∃ n, ∀ fuel, (n ≤ fuel)%nat → ∃ h' w', doRollover P fuel h now w = Ok h' w').
Proof.
  intros Hna Hrot Hh. split; [|split].
  - pose proof (init_writes_header P filename m maxBytes backupCount when interval utc
                  hd now0 mtime w0) as Hi.
    pose proof (init_deferred P filename m maxBytes backupCount when interval utc
                  (Some hd) now0 mtime w0) as Hd.
    destruct (parse_when (upper when)); [done|].
    destruct Hi as (h0 & w0' & Hi & _ & Hf). eauto.
  - intros fuel h' w' H.
    pose proof (doRollover_segment P fuel h now w h' w' Hna Hrot H) as Hs.
    destruct (doRollover_handler _ _ _ _ _ _ _ H) as (nr & _ & Eh).
    rewrite Hh in Hs. destruct (delay h) eqn:Hd; [|by destruct Hs as (? & ? & _)].
    destruct Hs as [Hs Hf].
    assert (baseFilename h' = baseFilename h ∧ namer h' = None ∧ rotator h' = None
            ∧ delay h' = true ∧ Handler.maxBytes h' = Handler.maxBytes h)
      as (Eb & En & Er & Ed & Em).
    { rewrite Eh. simpl. done. }
    split; [done|]. split; [done|]. split.
    + intros fuel' record later h'' w'' He. rewrite <- Eb.
      eapply emit_on_closed_segment; eauto. by rewrite Eb.
    + intros fuel' record later Hsz Ht.
      apply emit_on_closed_segment_returns; rewrite ?Eb, ?Em; done.
  - intros Hi Hfree. apply doRollover_returns; try done.
    + intros HN. unfold rotation_filename. rewrite Hna. by apply Hfree.
    + intros _. by apply archive_name_ne.
Qed.

Lemma C6_header_unless_deferred_witness :
  let h := daily 2 (Some "HDR") false (Some base) in
  let r := doRollover utc_py38 1 h mar14_0000_utc fs0 in
  (namer h = None ∧ rotator h = None ∧ header h = Some "HDR")
  ∧ files (world_of (__init__ utc_py38 base ModeA 50 2 false "D" 1 true (Some "HDR")
                       mar13_0000_utc mar13_0000_utc fs0) fs0) !! base
    = Some ("old" +:+ LF +:+ "HDR" +:+ LF)
  ∧ files (world_of r fs0) !! base = Some ("HDR" +:+ LF).
Proof.
  split; [repeat split|].
  pose proof (C6_header_unless_deferred utc_py38 base ModeA 50 2 "D" 1 true
                mar13_0000_utc mar13_0000_utc fs0
                (daily 2 (Some "HDR") false (Some base)) mar14_0000_utc fs0
                "HDR" eq_refl eq_refl eq_refl) as (Hi & Hr & _).
  split.
  - vm_compute. reflexivity.
  - exact (proj2 (Hr 1%nat
             (handler_of (doRollover utc_py38 1 (daily 2 (Some "HDR") false (Some base))
                            mar14_0000_utc fs0) nightly)
             (world_of (doRollover utc_py38 1 (daily 2 (Some "HDR") false (Some base))
                          mar14_0000_utc fs0) fs0)
             ltac:(vm_compute; reflexivity))).
Defined.
